(** * The e-commerce record service of [main.py]: model and properties

    [main.py] is a FastAPI application over three SQLite tables
    ([users], [products], [orders]) reached through SQLAlchemy Core
    statements and the [databases] package.  The development has four
    layers, in the order of the file:

    - Python values, keyword dictionaries and exceptions;
    - the pydantic classes of lines 20-60 (declared fields, [.dict()],
      attribute assignment, validation);
    - the relational store: the tables of lines 63-94, the four statement
      kinds the handlers issue, transactions;
    - the eight handlers of lines 100-171, each followed through its
      [response_model].

    The handlers are state transformers on a [World] (store and clock) that
    may raise; exceptions are values of [Exn].

    The libraries are modelled by their documented behaviour, each at the
    definition that stands for it:

    - Python: a keyword passed both through an unpacked dictionary and by
      name is a [TypeError] ([call_kwargs]);
    - pydantic: [.dict()] lists the declared fields, and assigning to a
      name that is not a declared field is a [ValueError] ([setattr]);
      validation is modelled for values that already have the declared
      type ([has_ty]), not the conversions pydantic may add;
    - SQLite: an integer primary key is the rowid, given as the largest
      one in use plus one up to the 64-bit ceiling ([next_rowid]); an
      integer parameter outside signed 64 bits is an [OverflowError]
      ([bind_parameters]); a unique index refuses a second row with the
      same value; foreign keys are not checked;
    - databases: the statement is compiled and handed to the driver, so
      the Python-side column defaults of lines 90-91 are not applied and
      a column the statement does not name is stored as NULL; [execute]
      returns an integer ([cursor_result]), [fetch_one] a row or [None],
      and [transaction] commits on return and rolls back on an exception;
    - FastAPI: the body is validated against the class of the handler's
      parameter, the result against [response_model] and rendered as
      JSON, which has no non-finite numbers ([serialize]); an
      [HTTPException] becomes its status code and any other exception a
      500. *)

From Stdlib Require Import ZArith List String Bool Lia.
Import ListNotations.
Local Open Scope string_scope.
Local Open Scope list_scope.
Local Open Scope Z_scope.

(** ** Python values *)

(** The values that travel between request bodies, pydantic objects and
    table cells.  A [float] is carried as its binary64 bit pattern: the
    service stores and returns prices and never computes with them.  A
    [datetime] is a count of microseconds. *)
Inductive Val : Type :=
| VNone
| VInt (n : Z)
| VFloat (bits : Z)
| VStr (s : string)
| VDateTime (t : Z).

Definition Val_eqb (a b : Val) : bool :=
  match a, b with
  | VNone, VNone => true
  | VInt x, VInt y => x =? y
  | VFloat x, VFloat y => x =? y
  | VStr x, VStr y => String.eqb x y
  | VDateTime x, VDateTime y => x =? y
  | _, _ => false
  end.

(** [x is None] *)
Definition is_None (v : Val) : bool :=
  match v with VNone => true | _ => false end.

(** A Python [dict] with string keys, in insertion order: keyword
    arguments, [.dict()] of a model, a fetched row. *)
Definition Dict : Type := list (string * Val).

Fixpoint dict_get (k : string) (d : Dict) : option Val :=
  match d with
  | [] => None
  | (k', v) :: d' => if String.eqb k k' then Some v else dict_get k d'
  end.

Definition dict_keys (d : Dict) : list string := map fst d.

Definition mem (k : string) (ks : list string) : bool :=
  existsb (String.eqb k) ks.

(** [d[k] = v]: overwrite in place, or append a new key. *)
Fixpoint dict_set (k : string) (v : Val) (d : Dict) : Dict :=
  match d with
  | [] => [(k, v)]
  | (k', v') :: d' =>
      if String.eqb k k' then (k', v) :: d' else (k', v') :: dict_set k v d'
  end.

(** ** pydantic classes (lines 20-60) *)

Inductive Ty : Type := TInt | TFloat | TStr | TDateTime.

Inductive ModelClass : Type :=
| UserBase | UserCreate | User
| ProductBase | ProductCreate | Product
| OrderBase | OrderCreate | Order.

Definition UserBase_fields : list (string * Ty) :=
  [("first_name", TStr); ("last_name", TStr); ("email", TStr)].

Definition ProductBase_fields : list (string * Ty) :=
  [("name", TStr); ("description", TStr); ("price", TFloat)].

Definition OrderBase_fields : list (string * Ty) :=
  [("user_id", TInt); ("product_id", TInt)].

(** Declared fields of a class: those of the base class first, then its
    own, as pydantic collects them. *)
Definition fields (c : ModelClass) : list (string * Ty) :=
  match c with
  | UserBase => UserBase_fields
  | UserCreate => UserBase_fields ++ [("password", TStr)]
  | User => UserBase_fields ++ [("id", TInt)]
  | ProductBase => ProductBase_fields
  | ProductCreate => ProductBase_fields
  | Product => ProductBase_fields ++ [("id", TInt)]
  | OrderBase => OrderBase_fields
  | OrderCreate => OrderBase_fields
  | Order =>
      OrderBase_fields
        ++ [("id", TInt); ("order_date", TDateTime); ("status", TStr)]
  end.

Definition field_names (c : ModelClass) : list string := map fst (fields c).

(** ** Exceptions *)

Inductive Exn : Type :=
(** a call that unpacks a dictionary with the double-star syntax and also
    passes, by name, a keyword that is a key of that dictionary:
    "got multiple values for keyword argument" *)
| TypeError_multiple_values (kw : string)
(** assignment to a name that is not a declared field of the model class:
    "object has no field" *)
| ValueError_no_field (c : ModelClass) (name : string)
| AttributeError (c : ModelClass) (name : string)
(** [.values(...)] naming something that is not a column of the table *)
| CompileError_unconsumed (names : list string)
(** a UNIQUE index refused the row *)
| IntegrityError_unique (column : string)
| HTTPException (status_code : Z) (detail : string)
(** an integer parameter of a statement that does not fit SQLite's signed
    64-bit INTEGER: "Python int too large to convert to SQLite INTEGER" *)
| OverflowError
(** a statement that assigns the primary key itself; no handler builds
    one, and the store model does not cover it *)
| Unmodelled_primary_key_assignment
(** an insert into a table whose largest rowid is the 64-bit ceiling:
    SQLite then draws rowids at random until one is free, and the store
    model does not cover the draw *)
| Unmodelled_random_rowid.

Inductive Result (A : Type) : Type :=
| Ok (a : A)
| Raise (e : Exn).
Arguments Ok {A} a.
Arguments Raise {A} e.

(** ** pydantic objects *)

Record Obj : Type := mkObj { cls : ModelClass; attrs : Dict }.

(** A field value that has the declared type as it stands.  [None] never
    has.  pydantic also converts some values of another type (a numeric
    string or an integral float for an int, an int or a numeric string
    for a float); those conversions are not modelled, so a body that
    validates here validates in the service, and nothing is claimed of a
    body that does not validate here beyond what holds either way. *)
Definition has_ty (t : Ty) (v : Val) : bool :=
  match t, v with
  | TInt, VInt _ => true
  | TFloat, VFloat _ => true
  | TStr, VStr _ => true
  | TDateTime, VDateTime _ => true
  | _, _ => false
  end.

(** Validation of a mapping against the declared fields: every field must
    be present with a value of its type; keys that are not fields are
    dropped (pydantic's default [extra = ignore]). *)
Fixpoint validate_fields (fs : list (string * Ty)) (data : Dict)
  : option Dict :=
  match fs with
  | [] => Some []
  | (name, t) :: fs' =>
      match dict_get name data with
      | Some v =>
          if has_ty t v then
            match validate_fields fs' data with
            | Some rest => Some ((name, v) :: rest)
            | None => None
            end
          else None
      | None => None
      end
  end.

Definition validate (c : ModelClass) (data : Dict) : option Obj :=
  match validate_fields (fields c) data with
  | Some a => Some (mkObj c a)
  | None => None
  end.

(** [obj.dict()] *)
Definition obj_dict (o : Obj) : Dict := attrs o.

(** [obj.name] *)
Definition getattr (o : Obj) (name : string) : Result Val :=
  match dict_get name (attrs o) with
  | Some v => Ok v
  | None => Raise (AttributeError (cls o) name)
  end.

(** [obj.name = v].  [BaseModel.__setattr__] accepts declared fields only;
    none of the classes above sets [extra = allow]. *)
Definition setattr (o : Obj) (name : string) (v : Val) : Result Obj :=
  if mem name (field_names (cls o))
  then Ok (mkObj (cls o) (dict_set name v (attrs o)))
  else Raise (ValueError_no_field (cls o) name).

(** ** Keyword-argument calls *)

(** A call whose arguments are a double-star unpacked dictionary followed
    by explicit keywords [k1=v1, ...]: Python raises [TypeError] when an
    explicit keyword is also a key of the unpacked dictionary; otherwise
    the callee receives both. *)
Definition call_kwargs (unpacked explicit : Dict) : Result Dict :=
  match find (fun kv => mem (fst kv) (dict_keys unpacked)) explicit with
  | Some (k, _) => Raise (TypeError_multiple_values k)
  | None => Ok (unpacked ++ explicit)
  end.

(** ** The relational store (lines 63-97) *)

(** A table is the list of its rows, oldest first, each row a rowid and the
    other columns.  [id = Column(Integer, primary_key=True)] makes [id] the
    SQLite rowid; SQLAlchemy emits no AUTOINCREMENT for it. *)
Definition Table (C : Type) : Type := list (Z * C).

(** The bounds of SQLite's INTEGER. *)
Definition max_int64 : Z := 2 ^ 63 - 1.
Definition min_int64 : Z := - 2 ^ 63.

Definition in_int64 (n : Z) : bool := (min_int64 <=? n) && (n <=? max_int64).

Section TableOps.
Context {C : Type}.

Definition rowids (t : Table C) : list Z := map fst t.

(** The largest rowid in use, if any. *)
Definition max_rowid (t : Table C) : option Z :=
  match rowids t with
  | [] => None
  | i :: rest => Some (fold_right Z.max i rest)
  end.

(** The rowid SQLite gives to a row inserted without one: 1 in an empty
    table, otherwise one more than the largest rowid in use.  When the
    largest rowid in use is the ceiling 2^63 - 1, SQLite draws rowids at
    random until it finds a free one; the draw is not modelled, and
    [next_rowid] is [None] there. *)
Definition next_rowid (t : Table C) : option Z :=
  match max_rowid t with
  | None => Some 1
  | Some m => if m <? max_int64 then Some (m + 1) else None
  end.

(** [WHERE id == i] *)
Definition has_rowid (i : Z) (r : Z * C) : bool := fst r =? i.

Definition table_insert (c : C) (t : Table C) : option (Z * Table C) :=
  match next_rowid t with
  | Some i => Some (i, t ++ [(i, c)])
  | None => None
  end.

Definition table_select (i : Z) (t : Table C) : option (Z * C) :=
  find (has_rowid i) t.

(** Number of rows a [WHERE id == i] statement touches. *)
Definition rowcount (i : Z) (t : Table C) : Z :=
  Z.of_nat (List.length (filter (has_rowid i) t)).

Definition table_update (i : Z) (f : C -> C) (t : Table C) : Table C :=
  map (fun r => if has_rowid i r then (fst r, f (snd r)) else r) t.

Definition table_delete (i : Z) (t : Table C) : Table C :=
  filter (fun r => negb (has_rowid i r)) t.
End TableOps.

(** [UserModel], [ProductModel], [OrderModel]: the columns besides [id].
    Every one of them is nullable, and SQLite types values, not columns,
    so a cell holds a [Val]. *)
Record UserCols : Type := mkUserCols
  { first_name : Val; last_name : Val; email : Val; password : Val }.

Record ProductCols : Type := mkProductCols
  { name : Val; description : Val; price : Val }.

Record OrderCols : Type := mkOrderCols
  { user_id : Val; product_id : Val; order_date : Val; status : Val }.

Definition users_columns : list string :=
  ["first_name"; "last_name"; "email"; "password"].
Definition products_columns : list string :=
  ["name"; "description"; "price"].
Definition orders_columns : list string :=
  ["user_id"; "product_id"; "order_date"; "status"].

Record DB : Type := mkDB
  { users : Table UserCols;
    products : Table ProductCols;
    orders : Table OrderCols }.

Definition with_users (t : Table UserCols) (d : DB) : DB :=
  mkDB t (products d) (orders d).
Definition with_products (t : Table ProductCols) (d : DB) : DB :=
  mkDB (users d) t (orders d).
Definition with_orders (t : Table OrderCols) (d : DB) : DB :=
  mkDB (users d) (products d) t.

(** A fetched row, as the mapping [fetch_one] returns. *)
Definition user_record (r : Z * UserCols) : Dict :=
  [("id", VInt (fst r)); ("first_name", first_name (snd r));
   ("last_name", last_name (snd r)); ("email", email (snd r));
   ("password", password (snd r))].

Definition product_record (r : Z * ProductCols) : Dict :=
  [("id", VInt (fst r)); ("name", name (snd r));
   ("description", description (snd r)); ("price", price (snd r))].

Definition order_record (r : Z * OrderCols) : Dict :=
  [("id", VInt (fst r)); ("user_id", user_id (snd r));
   ("product_id", product_id (snd r)); ("order_date", order_date (snd r));
   ("status", status (snd r))].

(** ** The world a handler runs in *)

(** The store, and the clock behind [datetime.utcnow()]: the [n]-th reading
    of the clock returns [clock n]. *)
Record World : Type := mkWorld { db : DB; clock : nat -> Z; reads : nat }.

Definition M (A : Type) : Type := World -> Result A * World.

Definition ret {A : Type} (a : A) : M A := fun w => (Ok a, w).

Definition raise {A : Type} (e : Exn) : M A := fun w => (Raise e, w).

Definition lift {A : Type} (r : Result A) : M A := fun w => (r, w).

Definition bind {A B : Type} (m : M A) (k : A -> M B) : M B :=
  fun w =>
    match m w with
    | (Ok a, w') => k a w'
    | (Raise e, w') => (Raise e, w')
    end.

Declare Scope py_scope.
Delimit Scope py_scope with py.
Notation "x <- m ;; k" := (bind m (fun x => k))
  (at level 61, m at next level, right associativity) : py_scope.
Notation "m ;;; k" := (bind m (fun _ => k))
  (at level 61, right associativity) : py_scope.
Local Open Scope py_scope.

Definition get_db : M DB := fun w => (Ok (db w), w).

Definition put_db (d : DB) : M unit :=
  fun w => (Ok tt, mkWorld d (clock w) (reads w)).

(** [datetime.utcnow()] *)
Definition utcnow : M Val :=
  fun w => (Ok (VDateTime (clock w (reads w))),
            mkWorld (db w) (clock w) (S (reads w))).

(** [async with database.transaction(): body]: commit when the body
    returns, roll the store back when it raises; the exception goes on to
    the caller. *)
Definition transaction {A : Type} (body : M A) : M A :=
  fun w =>
    match body w with
    | (Ok a, w') => (Ok a, w')
    | (Raise e, w') => (Raise e, mkWorld (db w) (clock w') (reads w'))
    end.

(** ** Statements *)

(** What [database.execute] returns on SQLite: the cursor's [lastrowid],
    or its [rowcount] when [lastrowid] is 0.  Always an integer. *)
Definition cursor_result (lastrowid rowcount : Z) : Val :=
  VInt (if lastrowid =? 0 then rowcount else lastrowid).

(** The driver binds the parameters of a statement before it runs it; an
    integer outside signed 64 bits stops it there. *)
Definition bindable (v : Val) : bool :=
  match v with VInt n => in_int64 n | _ => true end.

Definition bind_parameters (params : list Val) : Result unit :=
  if forallb bindable params then Ok tt else Raise OverflowError.

(** [.values(...)] accepts column names only. *)
Definition check_values (columns : list string) (values : Dict)
  : Result unit :=
  match filter (fun k => negb (mem k ("id" :: columns))) (dict_keys values)
  with
  | [] =>
      if mem "id" (dict_keys values)
      then Raise Unmodelled_primary_key_assignment
      else Ok tt
  | unknown => Raise (CompileError_unconsumed unknown)
  end.

(** The value a statement gives to a column: the one named in [values], or
    [otherwise]. *)
Definition cell (column : string) (values : Dict) (otherwise : Val) : Val :=
  match dict_get column values with
  | Some v => v
  | None => otherwise
  end.

Definition users_row (values : Dict) : UserCols :=
  {| first_name := cell "first_name" values VNone;
     last_name := cell "last_name" values VNone;
     email := cell "email" values VNone;
     password := cell "password" values VNone |}.

Definition products_row (values : Dict) : ProductCols :=
  {| name := cell "name" values VNone;
     description := cell "description" values VNone;
     price := cell "price" values VNone |}.

(** The row an insert into [orders] writes: the values it names, NULL
    elsewhere.  [order_date] and [status] have Python-side defaults
    (lines 90-91), which only SQLAlchemy's own execution applies; the
    statement goes to the driver through [databases] without them. *)
Definition orders_row (values : Dict) : OrderCols :=
  {| user_id := cell "user_id" values VNone;
     product_id := cell "product_id" values VNone;
     order_date := cell "order_date" values VNone;
     status := cell "status" values VNone |}.

(** [email = Column(String, unique=True)]: a non-NULL email may occur in
    one row only.  Emails are the strings [UserCreate] validates. *)
Definition email_taken (e : Val) (t : Table UserCols) : bool :=
  negb (is_None e) && existsb (fun r => Val_eqb (email (snd r)) e) t.

(** [database.execute(UserModel.__table__.insert().values(...))].  The
    values are the strings of a [UserCreate]: no integer is bound. *)
Definition execute_insert_users (values : Dict) : M Val :=
  lift (check_values users_columns values) ;;;
  d <- get_db ;;
  let row := users_row values in
  if email_taken (email row) (users d)
  then raise (IntegrityError_unique "users.email")
  else
    match table_insert row (users d) with
    | Some (i, t) => put_db (with_users t d) ;;; ret (cursor_result i 1)
    | None => raise Unmodelled_random_rowid
    end.

(** [database.execute(ProductModel.__table__.insert().values(...))].  The
    values are the strings and the float of a [ProductCreate]. *)
Definition execute_insert_products (values : Dict) : M Val :=
  lift (check_values products_columns values) ;;;
  d <- get_db ;;
  match table_insert (products_row values) (products d) with
  | Some (i, t) => put_db (with_products t d) ;;; ret (cursor_result i 1)
  | None => raise Unmodelled_random_rowid
  end.

(** [database.execute(OrderModel.__table__.insert().values(...))] *)
Definition execute_insert_orders (values : Dict) : M Val :=
  lift (check_values orders_columns values) ;;;
  lift (bind_parameters (map snd values)) ;;;
  d <- get_db ;;
  match table_insert (orders_row values) (orders d) with
  | Some (i, t) => put_db (with_orders t d) ;;; ret (cursor_result i 1)
  | None => raise Unmodelled_random_rowid
  end.

(** [SET] of an update: the named columns change, the others stay. *)
Definition orders_set (values : Dict) (c : OrderCols) : OrderCols :=
  {| user_id := cell "user_id" values (user_id c);
     product_id := cell "product_id" values (product_id c);
     order_date := cell "order_date" values (order_date c);
     status := cell "status" values (status c) |}.

(** [database.execute(OrderModel.__table__.update()
      .where(OrderModel.id == order_id).values(...))] *)
Definition execute_update_orders (order_id : Z) (values : Dict) : M Val :=
  lift (check_values orders_columns values) ;;;
  lift (bind_parameters (map snd values ++ [VInt order_id])) ;;;
  d <- get_db ;;
  put_db (with_orders (table_update order_id (orders_set values) (orders d)) d) ;;;
  ret (cursor_result 0 (rowcount order_id (orders d))).

(** [database.execute(OrderModel.__table__.delete()
      .where(OrderModel.id == order_id))] *)
Definition execute_delete_orders (order_id : Z) : M Val :=
  lift (bind_parameters [VInt order_id]) ;;;
  d <- get_db ;;
  put_db (with_orders (table_delete order_id (orders d)) d) ;;;
  ret (cursor_result 0 (rowcount order_id (orders d))).

(** [database.fetch_one(T.__table__.select().where(T.id == i))]: the row
    as a mapping, or [None]; the id is a parameter of the statement. *)
Definition fetch_one_users (i : Z) : M (option Dict) :=
  lift (bind_parameters [VInt i]) ;;;
  d <- get_db ;; ret (option_map user_record (table_select i (users d))).

Definition fetch_one_products (i : Z) : M (option Dict) :=
  lift (bind_parameters [VInt i]) ;;;
  d <- get_db ;; ret (option_map product_record (table_select i (products d))).

Definition fetch_one_orders (i : Z) : M (option Dict) :=
  lift (bind_parameters [VInt i]) ;;;
  d <- get_db ;; ret (option_map order_record (table_select i (orders d))).

(** ** The handlers (lines 100-171) *)

(** What a handler hands back to FastAPI: a pydantic object, a fetched
    row, or a bare value. *)
Inductive PyVal : Type :=
| PObj (o : Obj)
| PRecord (row : Dict)
| PVal (v : Val).

(** Lines 100-106.  The keyword arguments of [values] are [user.dict()]
    unpacked, then [password=user.password]. *)
Definition create_user (user : Obj) : M PyVal :=
  transaction (
    password <- lift (getattr user "password") ;;
    values <- lift (call_kwargs (obj_dict user) [("password", password)]) ;;
    last_record_id <- execute_insert_users values ;;
    user <- lift (setattr user "id" last_record_id) ;;
    ret (PObj user)).

(** Lines 109-115. *)
Definition read_user (user_id : Z) : M PyVal :=
  user <- fetch_one_users user_id ;;
  match user with
  | None => raise (HTTPException 404 "User not found")
  | Some row => ret (PRecord row)
  end.

(** Lines 118-124. *)
Definition create_product (product : Obj) : M PyVal :=
  transaction (
    values <- lift (call_kwargs (obj_dict product) []) ;;
    last_record_id <- execute_insert_products values ;;
    product <- lift (setattr product "id" last_record_id) ;;
    ret (PObj product)).

(** Lines 127-133. *)
Definition read_product (product_id : Z) : M PyVal :=
  product <- fetch_one_products product_id ;;
  match product with
  | None => raise (HTTPException 404 "Product not found")
  | Some row => ret (PRecord row)
  end.

(** Lines 136-144.  The clock is read once for the statement and once more
    for the object handed back. *)
Definition create_order (order : Obj) : M PyVal :=
  transaction (
    now <- utcnow ;;
    values <- lift (call_kwargs (obj_dict order) [("order_date", now)]) ;;
    last_record_id <- execute_insert_orders values ;;
    order <- lift (setattr order "id" last_record_id) ;;
    now' <- utcnow ;;
    order <- lift (setattr order "order_date" now') ;;
    order <- lift (setattr order "status" (VStr "Pending")) ;;
    ret (PObj order)).

(** Lines 147-153. *)
Definition read_order (order_id : Z) : M PyVal :=
  order <- fetch_one_orders order_id ;;
  match order with
  | None => raise (HTTPException 404 "Order not found")
  | Some row => ret (PRecord row)
  end.

(** Lines 156-162.  The result of [execute] is dropped. *)
Definition update_order (order_id : Z) (updated_order : Obj) : M PyVal :=
  transaction (
    values <- lift (call_kwargs (obj_dict updated_order) []) ;;
    execute_update_orders order_id values ;;;
    updated_order <- lift (setattr updated_order "id" (VInt order_id)) ;;
    ret (PObj updated_order)).

(** Lines 165-171.  No transaction: the statement commits on its own. *)
Definition delete_order (order_id : Z) : M PyVal :=
  deleted_order <- execute_delete_orders order_id ;;
  if is_None deleted_order
  then raise (HTTPException 404 "Order not found")
  else ret (PVal deleted_order).

(** ** The HTTP surface *)

Inductive HttpResponse : Type :=
| Http200 (body : Dict)
| HttpError (status_code : Z) (detail : string).

(** A binary64 bit pattern that is a number: the exponent field is not
    all ones. *)
Definition float_finite (bits : Z) : bool :=
  negb (Z.land (Z.shiftr bits 52) 2047 =? 2047).

(** What the JSON response can hold: every value but an infinite float
    or a NaN ([JSONResponse] renders with [allow_nan=False]). *)
Definition renderable (v : Val) : bool :=
  match v with VFloat bits => float_finite bits | _ => true end.

(** [response_model=c]: the returned object or row is validated against
    [c] and only the fields of [c] are sent, as JSON; anything that does
    not validate, or cannot be rendered, is a server error. *)
Definition serialize (response_model : ModelClass) (v : PyVal)
  : HttpResponse :=
  let content :=
    match v with
    | PObj o => Some (obj_dict o)
    | PRecord row => Some row
    | PVal _ => None
    end in
  match content with
  | Some data =>
      match validate response_model data with
      | Some o =>
          if forallb renderable (map snd (obj_dict o))
          then Http200 (obj_dict o)
          else HttpError 500 "Internal Server Error"
      | None => HttpError 500 "Internal Server Error"
      end
  | None => HttpError 500 "Internal Server Error"
  end.

(** An [HTTPException] becomes the response it names; any other exception
    is a server error. *)
Definition respond (response_model : ModelClass) (r : Result PyVal)
  : HttpResponse :=
  match r with
  | Ok v => serialize response_model v
  | Raise (HTTPException code detail) => HttpError code detail
  | Raise _ => HttpError 500 "Internal Server Error"
  end.

Definition route (response_model : ModelClass) (handler : M PyVal)
  : World -> HttpResponse * World :=
  fun w => let (r, w') := handler w in (respond response_model r, w').

(** A route with a body: the body is validated against the class of the
    handler's parameter before the handler runs. *)
Definition route_body (request_model response_model : ModelClass)
    (handler : Obj -> M PyVal) (body : Dict)
  : World -> HttpResponse * World :=
  fun w =>
    match validate request_model body with
    | Some o => route response_model (handler o) w
    | None => (HttpError 422 "Unprocessable Entity", w)
    end.

(** The decorators of lines 100, 109, 118, 127, 136, 147, 156, 165. *)
Definition post_users := route_body UserCreate User create_user.
Definition get_users (user_id : Z) := route User (read_user user_id).
Definition post_products := route_body ProductCreate Product create_product.
Definition get_products (product_id : Z) :=
  route Product (read_product product_id).
Definition post_orders := route_body OrderCreate Order create_order.
Definition get_orders (order_id : Z) := route Order (read_order order_id).
Definition put_orders (order_id : Z) :=
  route_body OrderCreate Order (update_order order_id).
Definition delete_orders (order_id : Z) :=
  route Order (delete_order order_id).

(** ** Sample data *)

Definition empty_db : DB := mkDB [] [] [].

(** A clock that moves: reading [n] returns [1000 + n]. *)
Definition sample_clock (n : nat) : Z := 1000 + Z.of_nat n.

Definition fresh_world : World := mkWorld empty_db sample_clock 0.

Definition sample_user_body : Dict :=
  [("first_name", VStr "A"); ("last_name", VStr "B");
   ("email", VStr "a@b.com"); ("password", VStr "x")].

Definition sample_order_body : Dict :=
  [("user_id", VInt 1); ("product_id", VInt 1)].

(** A store with one user and one order, as an earlier run of the service
    (or any other client of [main.db]) may have left it. *)
Definition stocked_db : DB :=
  mkDB [(1, mkUserCols (VStr "A") (VStr "B") (VStr "a@b.com") (VStr "x"))]
       []
       [(1, mkOrderCols (VInt 1) (VInt 1) (VDateTime 5) (VStr "Pending"))].

Definition stocked_world : World := mkWorld stocked_db sample_clock 0.

(** ** The statements as data *)

(** The five statements the handlers send to [database.execute]. *)
Inductive Stmt : Type :=
| InsertUsers (values : Dict)
| InsertProducts (values : Dict)
| InsertOrders (values : Dict)
| UpdateOrders (order_id : Z) (values : Dict)
| DeleteOrders (order_id : Z).

Definition execute (s : Stmt) : M Val :=
  match s with
  | InsertUsers values => execute_insert_users values
  | InsertProducts values => execute_insert_products values
  | InsertOrders values => execute_insert_orders values
  | UpdateOrders order_id values => execute_update_orders order_id values
  | DeleteOrders order_id => execute_delete_orders order_id
  end.

Inductive TableName : Type := users_table | products_table | orders_table.



(** The table an insert statement writes to. *)
Definition insert_target (s : Stmt) : option TableName :=
  match s with
  | InsertUsers _ => Some users_table
  | InsertProducts _ => Some products_table
  | InsertOrders _ => Some orders_table
  | UpdateOrders _ _ | DeleteOrders _ => None
  end.

(** Running statements one after the other, each committed on its own,
    as a client of [main.db] that keeps no transaction open does; a
    statement that raises changes nothing and the run goes on.  (The
    handlers wrap their INSERT and UPDATE in a transaction: see
    [ids_handed_out] for the service itself.)  The log lists, oldest
    first, the id every successful insert returned. *)
Fixpoint run (stmts : list Stmt) (w : World) : list (TableName * Val) * World :=
  match stmts with
  | [] => ([], w)
  | s :: rest =>
      match execute s w with
      | (Ok v, w') =>
          let (log, w'') := run rest w' in
          (match insert_target s with
           | Some tb => (tb, v) :: log
           | None => log
           end, w'')
      | (Raise _, w') => run rest w'
      end
  end.



(** Store invariant: in every table the ids are positive and pairwise
    distinct. *)
Definition wf_ids (l : list Z) : Prop := NoDup l /\ Forall (fun i => 0 < i) l.


(** The columns of an order that [update_order] has no business with. *)
Definition order_frame (r : Z * OrderCols) : Z * Val * Val :=
  (fst r, order_date (snd r), status (snd r)).

(** A user row without its password. *)
Definition public_user (r : Z * UserCols) : Z * Val * Val * Val :=
  (fst r, first_name (snd r), last_name (snd r), email (snd r)).

(** ** The application *)

(** The eight routes [main.py] registers on [app].  (FastAPI adds routes
    of its own for the API documentation; they are not part of this
    type.) *)
Inductive Request : Type :=
| POST_users (body : Dict)
| GET_users (user_id : Z)
| POST_products (body : Dict)
| GET_products (product_id : Z)
| POST_orders (body : Dict)
| GET_orders (order_id : Z)
| PUT_orders (order_id : Z) (body : Dict)
| DELETE_orders (order_id : Z).

Definition app (req : Request) : World -> HttpResponse * World :=
  match req with
  | POST_users body => post_users body
  | GET_users user_id => get_users user_id
  | POST_products body => post_products body
  | GET_products product_id => get_products product_id
  | POST_orders body => post_orders body
  | GET_orders order_id => get_orders order_id
  | PUT_orders order_id body => put_orders order_id body
  | DELETE_orders order_id => delete_orders order_id
  end.

(** The store of [stocked_world] with another password for its user. *)
Definition stocked_db_other_password : DB :=
  mkDB [(1, mkUserCols (VStr "A") (VStr "B") (VStr "a@b.com") (VStr "y"))]
       []
       (orders stocked_db).

(** Case analysis on every lookup in a request body. *)
Ltac split_lookups body :=
  repeat match goal with
         | |- context [dict_get ?k body] =>
             destruct (dict_get k body) as [[]|]; simpl; try discriminate
         end.

(** ** Requests one after the other *)

(** The application serving requests in order; the answers are listed
    oldest first. *)
Fixpoint serve (reqs : list Request) (w : World)
  : list HttpResponse * World :=
  match reqs with
  | [] => ([], w)
  | req :: rest =>
      let (resp, w') := app req w in
      let (resps, w'') := serve rest w' in
      (resp :: resps, w'')
  end.

(** The ids named by the DELETE requests of a list that SQLite can take:
    a DELETE with an id outside signed 64 bits raises, and no row has
    such an id. *)
Fixpoint deleted_ids (reqs : list Request) : list Z :=
  match reqs with
  | [] => []
  | DELETE_orders order_id :: rest =>
      if in_int64 order_id then order_id :: deleted_ids rest
      else deleted_ids rest
  | _ :: rest => deleted_ids rest
  end.

(** ** The ids the service is handed *)

(** [create_product] up to line 122 and [create_order] up to line 140:
    what [database.execute] returns for the INSERT, the value the handler
    binds to [last_record_id]. *)
Definition create_product_insert (product : Obj) : M Val :=
  values <- lift (call_kwargs (obj_dict product) []) ;;
  execute_insert_products values.

Definition create_order_insert (order : Obj) : M Val :=
  now <- utcnow ;;
  values <- lift (call_kwargs (obj_dict order) [("order_date", now)]) ;;
  execute_insert_orders values.

(** The table and the [last_record_id] of the INSERT a request runs, when
    it runs one that returns.  [create_user] raises before its INSERT is
    built. *)
Definition last_record_id (req : Request) (w : World)
  : option (TableName * Val) :=
  match req with
  | POST_products body =>
      match validate ProductCreate body with
      | Some product =>
          match fst (create_product_insert product w) with
          | Ok v => Some (products_table, v)
          | Raise _ => None
          end
      | None => None
      end
  | POST_orders body =>
      match validate OrderCreate body with
      | Some order =>
          match fst (create_order_insert order w) with
          | Ok v => Some (orders_table, v)
          | Raise _ => None
          end
      | None => None
      end
  | _ => None
  end.



Definition is_200 (r : HttpResponse) : bool :=
  match r with Http200 _ => true | HttpError _ _ => false end.

(** The emails the unique index of [users] holds: NULL is not indexed
    against other NULLs. *)
Definition stored_emails (t : Table UserCols) : list Val :=
  filter (fun e => negb (is_None e)) (map (fun r => email (snd r)) t).

(** A store with two orders, the second with a NULL status. *)
Definition two_orders_db : DB :=
  mkDB []
       [(1, mkProductCols (VStr "Widget") (VStr "d") (VFloat 9))]
       [(1, mkOrderCols (VInt 1) (VInt 1) (VDateTime 5) (VStr "Pending"));
        (2, mkOrderCols (VInt 1) (VInt 1) (VDateTime 6) VNone)].

Definition two_orders_world : World := mkWorld two_orders_db sample_clock 0.

(** * Properties *)

(** ** Tables *)

Section TableFacts.
Context {C : Type}.
Implicit Types (t : Table C) (i j : Z).

Lemma table_select_absent t i :
  ~ In i (rowids t) -> table_select i t = None.
Proof.
  unfold table_select, rowids, has_rowid.
  induction t as [|[j c] t IH]; simpl; intros H; [reflexivity|].
  destruct (Z.eqb_spec j i) as [->|_]; [tauto|].
  apply IH. tauto.
Qed.

Lemma table_select_present t i r :
  table_select i t = Some r -> In r t /\ fst r = i.
Proof.
  unfold table_select, has_rowid. intros H.
  apply find_some in H. destruct H as [H1 H2].
  split; [assumption | now apply Z.eqb_eq].
Qed.

Lemma fold_max_bound (i : Z) (l : list Z) :
  i <= fold_right Z.max i l /\ Forall (fun j => j <= fold_right Z.max i l) l.
Proof.
  induction l as [|a l [IH1 IH2]]; simpl.
  - split; [lia | constructor].
  - split; [lia|]. constructor; [lia|].
    eapply Forall_impl; [|exact IH2]. simpl. intros; lia.
Qed.

(** The largest rowid is a rowid in use and bounds the others. *)
Lemma max_rowid_bound t m :
  max_rowid t = Some m -> Forall (fun j => j <= m) (rowids t).
Proof.
  unfold max_rowid. destruct (rowids t) as [|i l]; [discriminate|].
  intros [= <-]. destruct (fold_max_bound i l) as [H1 H2].
  constructor; assumption.
Qed.

Lemma max_rowid_in t m : max_rowid t = Some m -> In m (rowids t).
Proof.
  unfold max_rowid. destruct (rowids t) as [|i l]; [discriminate|].
  intros [= <-]. clear. induction l as [|a l IH]; simpl; [now left|].
  destruct (Z.max_spec a (fold_right Z.max i l)) as [[_ ->]|[_ ->]].
  - destruct IH as [IH|IH]; [now left | right; now right].
  - right. now left.
Qed.

(** An automatic rowid is above every rowid in use. *)
Lemma next_rowid_above t i :
  next_rowid t = Some i -> Forall (fun j => j < i) (rowids t).
Proof.
  unfold next_rowid. destruct (max_rowid t) as [m|] eqn:M.
  - destruct (m <? max_int64); [|discriminate]. intros [= <-].
    eapply Forall_impl; [|exact (max_rowid_bound _ _ M)].
    simpl. intros; lia.
  - intros _. unfold max_rowid in M.
    destruct (rowids t); [constructor | discriminate].
Qed.

Lemma next_rowid_fresh t i : next_rowid t = Some i -> ~ In i (rowids t).
Proof.
  intros N H. pose proof (next_rowid_above t i N) as A.
  rewrite Forall_forall in A. specialize (A _ H). lia.
Qed.

(** With positive rowids in use, the automatic rowid is positive and fits
    64 bits. *)
Lemma next_rowid_range t i :
  next_rowid t = Some i ->
  Forall (fun j => 0 < j) (rowids t) ->
  0 < i /\ in_int64 i = true.
Proof.
  unfold next_rowid, in_int64, min_int64. intros N P.
  destruct (max_rowid t) as [m|] eqn:M.
  - destruct (Z.ltb_spec m max_int64); [|discriminate].
    injection N as <-.
    pose proof (max_rowid_in _ _ M) as I.
    rewrite Forall_forall in P. specialize (P _ I).
    split; [lia|]. apply andb_true_iff. split; apply Z.leb_le; lia.
  - injection N as <-. split; [lia | reflexivity].
Qed.


Lemma table_insert_some (c : C) t i t' :
  table_insert c t = Some (i, t') ->
  next_rowid t = Some i /\ t' = t ++ [(i, c)].
Proof.
  unfold table_insert. destruct (next_rowid t); [|discriminate].
  intros [= <- <-]. split; reflexivity.
Qed.

Lemma rowids_app t i (c : C) : rowids (t ++ [(i, c)]) = rowids t ++ [i].
Proof. unfold rowids. now rewrite map_app. Qed.

Lemma rowids_update i (f : C -> C) t :
  rowids (table_update i f t) = rowids t.
Proof.
  unfold table_update, rowids. rewrite map_map.
  apply map_ext. intros r. now destruct (has_rowid i r).
Qed.

Lemma rowids_delete i t :
  rowids (table_delete i t) = filter (fun j => negb (j =? i)) (rowids t).
Proof.
  unfold table_delete, rowids, has_rowid.
  induction t as [|[j c] t IH]; simpl; [reflexivity|].
  destruct (j =? i); simpl; now rewrite IH.
Qed.

Lemma table_delete_absent i t : ~ In i (rowids (table_delete i t)).
Proof.
  rewrite rowids_delete, filter_In. intros [_ H].
  now rewrite Z.eqb_refl in H.
Qed.

Lemma wf_ids_insert (c : C) t i t' :
  table_insert c t = Some (i, t') ->
  wf_ids (rowids t) -> wf_ids (rowids t').
Proof.
  intros T [N P]. apply table_insert_some in T. destruct T as [T ->].
  rewrite rowids_app. split.
  - apply NoDup_app; [assumption | repeat constructor; simpl; tauto |].
    intros x Hx [E|[]]. subst x. now apply (next_rowid_fresh t i).
  - apply Forall_app. split; [assumption|].
    constructor; [now apply (next_rowid_range t i) | constructor].
Qed.


(** An update touches the rows it names and no other. *)
Lemma table_update_elsewhere i (f : C -> C) t :
  filter (fun r => negb (has_rowid i r)) (table_update i f t)
  = filter (fun r => negb (has_rowid i r)) t.
Proof.
  unfold table_update, has_rowid.
  induction t as [|[j c] t IH]; simpl; [reflexivity|].
  destruct (Z.eqb_spec j i) as [->|Hne]; simpl.
  - rewrite Z.eqb_refl. simpl. exact IH.
  - destruct (Z.eqb_spec j i); [contradiction|]. simpl. now rewrite IH.
Qed.
End TableFacts.

(** ** Request bodies that validate *)

Lemma validate_UserCreate body user :
  validate UserCreate body = Some user ->
  exists f l e p,
    user = mkObj UserCreate
             [("first_name", VStr f); ("last_name", VStr l);
              ("email", VStr e); ("password", VStr p)].
Proof.
  unfold validate. simpl. split_lookups body.
  intros [= <-]. now eexists _, _, _, _.
Qed.

Lemma validate_ProductCreate body product :
  validate ProductCreate body = Some product ->
  exists n d p,
    product = mkObj ProductCreate
                [("name", VStr n); ("description", VStr d);
                 ("price", VFloat p)].
Proof.
  unfold validate. simpl. split_lookups body.
  intros [= <-]. now eexists _, _, _.
Qed.

Lemma validate_OrderCreate body order :
  validate OrderCreate body = Some order ->
  exists u p,
    order = mkObj OrderCreate [("user_id", VInt u); ("product_id", VInt p)]
    /\ dict_get "user_id" body = Some (VInt u)
    /\ dict_get "product_id" body = Some (VInt p).
Proof.
  unfold validate. simpl.
  destruct (dict_get "user_id" body) as [[]|]; simpl; try discriminate.
  destruct (dict_get "product_id" body) as [[]|]; simpl; try discriminate.
  intros [= <-]. now eexists _, _.
Qed.

(** ** What each statement does *)

Lemma bind_id i :
  bind_parameters [VInt i]
  = if in_int64 i then Ok tt else Raise OverflowError.
Proof.
  unfold bind_parameters. cbn [forallb bindable].
  now rewrite andb_true_r.
Qed.

Lemma execute_insert_users_eq values w :
  execute_insert_users values w =
  match check_values users_columns values with
  | Raise e => (Raise e, w)
  | Ok _ =>
      if email_taken (email (users_row values)) (users (db w))
      then (Raise (IntegrityError_unique "users.email"), w)
      else
        match next_rowid (users (db w)) with
        | Some i =>
            (Ok (cursor_result i 1),
             mkWorld (with_users (users (db w) ++ [(i, users_row values)])
                                 (db w))
                     (clock w) (reads w))
        | None => (Raise Unmodelled_random_rowid, w)
        end
  end.
Proof.
  unfold execute_insert_users, table_insert, bind, lift, get_db.
  destruct (check_values users_columns values); [|reflexivity].
  destruct (email_taken _ _); [reflexivity|].
  destruct (next_rowid (users (db w))); reflexivity.
Qed.

Lemma execute_insert_products_eq values w :
  execute_insert_products values w =
  match check_values products_columns values with
  | Raise e => (Raise e, w)
  | Ok _ =>
      match next_rowid (products (db w)) with
      | Some i =>
          (Ok (cursor_result i 1),
           mkWorld (with_products
                      (products (db w) ++ [(i, products_row values)]) (db w))
                   (clock w) (reads w))
      | None => (Raise Unmodelled_random_rowid, w)
      end
  end.
Proof.
  unfold execute_insert_products, table_insert, bind, lift, get_db.
  destruct (check_values products_columns values); [|reflexivity].
  destruct (next_rowid (products (db w))); reflexivity.
Qed.

Lemma execute_insert_orders_eq values w :
  execute_insert_orders values w =
  match check_values orders_columns values with
  | Raise e => (Raise e, w)
  | Ok _ =>
      match bind_parameters (map snd values) with
      | Raise e => (Raise e, w)
      | Ok _ =>
          match next_rowid (orders (db w)) with
          | Some i =>
              (Ok (cursor_result i 1),
               mkWorld (with_orders
                          (orders (db w) ++ [(i, orders_row values)]) (db w))
                       (clock w) (reads w))
          | None => (Raise Unmodelled_random_rowid, w)
          end
      end
  end.
Proof.
  unfold execute_insert_orders, table_insert, bind, lift, get_db.
  destruct (check_values orders_columns values); [|reflexivity].
  destruct (bind_parameters (map snd values)); [|reflexivity].
  destruct (next_rowid (orders (db w))); reflexivity.
Qed.

Lemma execute_update_orders_eq order_id values w :
  execute_update_orders order_id values w =
  match check_values orders_columns values with
  | Raise e => (Raise e, w)
  | Ok _ =>
      match bind_parameters (map snd values ++ [VInt order_id]) with
      | Raise e => (Raise e, w)
      | Ok _ =>
          (Ok (cursor_result 0 (rowcount order_id (orders (db w)))),
           mkWorld (with_orders
                      (table_update order_id (orders_set values)
                                    (orders (db w)))
                      (db w))
                   (clock w) (reads w))
      end
  end.
Proof.
  unfold execute_update_orders, bind, lift, get_db.
  destruct (check_values orders_columns values); [|reflexivity].
  destruct (bind_parameters _); reflexivity.
Qed.

Lemma execute_delete_orders_eq order_id w :
  execute_delete_orders order_id w =
  if in_int64 order_id
  then (Ok (cursor_result 0 (rowcount order_id (orders (db w)))),
        mkWorld (with_orders (table_delete order_id (orders (db w))) (db w))
                (clock w) (reads w))
  else (Raise OverflowError, w).
Proof.
  unfold execute_delete_orders, bind, lift. rewrite bind_id.
  destruct (in_int64 order_id); reflexivity.
Qed.


(** [execute] never returns [None]. *)
Lemma cursor_result_not_None l r : is_None (cursor_result l r) = false.
Proof. reflexivity. Qed.

(** ** What each handler does *)

Lemma world_eta w : mkWorld (db w) (clock w) (reads w) = w.
Proof. now destruct w. Qed.

(** [create_user] stops at line 103: [user.dict()] already has the key
    [password], so the call of [values] raises before any statement is
    built, and the transaction has nothing to undo. *)
Lemma create_user_raises body user w :
  validate UserCreate body = Some user ->
  create_user user w = (Raise (TypeError_multiple_values "password"), w).
Proof.
  intros H. destruct (validate_UserCreate _ _ H) as (f & l & e & p & ->).
  destruct w. reflexivity.
Qed.

(** [create_product] stops at line 123: [ProductCreate] declares no field
    [id].  The insert of line 122 is rolled back. *)
Lemma create_product_raises body product w :
  validate ProductCreate body = Some product ->
  create_product product w =
  (Raise match next_rowid (products (db w)) with
         | Some _ => ValueError_no_field ProductCreate "id"
         | None => Unmodelled_random_rowid
         end, w).
Proof.
  intros H. destruct (validate_ProductCreate _ _ H) as (n & d & p & ->).
  unfold create_product, transaction, bind, lift.
  cbn [obj_dict attrs call_kwargs find].
  rewrite execute_insert_products_eq.
  change (check_values products_columns
            ([("name", VStr n); ("description", VStr d);
              ("price", VFloat p)] ++ [])) with (Ok tt).
  destruct (next_rowid (products (db w))); cbn; now rewrite world_eta.
Qed.

(** [create_order] stops at line 141: [OrderCreate] declares no field
    [id].  The insert of line 140 is rolled back; the clock has been read
    once.  When one of the two ids does not fit 64 bits, the insert itself
    raises. *)
Lemma create_order_raises u p w :
  create_order
    (mkObj OrderCreate [("user_id", VInt u); ("product_id", VInt p)]) w =
  (Raise (if in_int64 u && in_int64 p
          then match next_rowid (orders (db w)) with
               | Some _ => ValueError_no_field OrderCreate "id"
               | None => Unmodelled_random_rowid
               end
          else OverflowError),
   mkWorld (db w) (clock w) (S (reads w))).
Proof.
  unfold create_order, transaction, bind, lift, utcnow.
  cbn [obj_dict attrs].
  change (call_kwargs [("user_id", VInt u); ("product_id", VInt p)]
            [("order_date", VDateTime (clock w (reads w)))])
    with (Ok [("user_id", VInt u); ("product_id", VInt p);
              ("order_date", VDateTime (clock w (reads w)))]).
  cbn beta iota. rewrite execute_insert_orders_eq.
  change (check_values orders_columns
            [("user_id", VInt u); ("product_id", VInt p);
             ("order_date", VDateTime (clock w (reads w)))]) with (Ok tt).
  unfold bind_parameters. cbn [map snd forallb bindable db clock reads].
  rewrite !andb_true_r.
  destruct (in_int64 u && in_int64 p); [|reflexivity].
  destruct (next_rowid (orders (db w))); reflexivity.
Qed.

(** [update_order] stops at line 161 in the same way, whatever the store
    holds; the update of line 160 is rolled back.  When the id or one of
    the two values does not fit 64 bits, the update itself raises. *)
Lemma update_order_raises u p order_id w :
  update_order order_id
    (mkObj OrderCreate [("user_id", VInt u); ("product_id", VInt p)]) w =
  (Raise (if in_int64 u && in_int64 p && in_int64 order_id
          then ValueError_no_field OrderCreate "id"
          else OverflowError), w).
Proof.
  unfold update_order, transaction, bind, lift.
  cbn [obj_dict attrs call_kwargs find List.app].
  rewrite execute_update_orders_eq.
  change (check_values orders_columns
            [("user_id", VInt u); ("product_id", VInt p)]) with (Ok tt).
  unfold bind_parameters. cbn [map snd List.app forallb bindable].
  rewrite !andb_true_r, andb_assoc.
  destruct (in_int64 u && in_int64 p && in_int64 order_id); cbn;
    now rewrite world_eta.
Qed.

(** The row that the statement of line 139 writes before the rollback:
    the caller's two references and the first clock reading; [status],
    which the statement does not name, is NULL. *)
Lemma create_order_statement u p w :
  in_int64 u = true -> in_int64 p = true ->
  let now := VDateTime (clock w (reads w)) in
  call_kwargs [("user_id", VInt u); ("product_id", VInt p)]
              [("order_date", now)]
  = Ok [("user_id", VInt u); ("product_id", VInt p); ("order_date", now)]
  /\ forall i,
       next_rowid (orders (db w)) = Some i ->
       orders (db (snd (execute_insert_orders
                          [("user_id", VInt u); ("product_id", VInt p);
                           ("order_date", now)] w)))
       = orders (db w) ++ [(i, mkOrderCols (VInt u) (VInt p) now VNone)].
Proof.
  intros Hu Hp now. split; [reflexivity|]. intros i N.
  rewrite execute_insert_orders_eq.
  change (check_values orders_columns
            [("user_id", VInt u); ("product_id", VInt p);
             ("order_date", now)]) with (Ok tt).
  unfold bind_parameters. cbn [map snd forallb bindable].
  rewrite Hu, Hp, N. reflexivity.
Qed.

(** [delete_order] never takes its 404 branch: it hands back the integer
    that [execute] returned, and the rows with that id are gone; an id
    that does not fit 64 bits makes the statement raise. *)
Lemma delete_order_eq order_id w :
  delete_order order_id w =
  if in_int64 order_id
  then (Ok (PVal (VInt (rowcount order_id (orders (db w))))),
        mkWorld (with_orders (table_delete order_id (orders (db w))) (db w))
                (clock w) (reads w))
  else (Raise OverflowError, w).
Proof.
  unfold delete_order, bind. rewrite execute_delete_orders_eq.
  destruct (in_int64 order_id); reflexivity.
Qed.

Lemma read_user_eq user_id w :
  read_user user_id w =
  if in_int64 user_id
  then match table_select user_id (users (db w)) with
       | Some r => (Ok (PRecord (user_record r)), w)
       | None => (Raise (HTTPException 404 "User not found"), w)
       end
  else (Raise OverflowError, w).
Proof.
  unfold read_user, fetch_one_users, bind, lift, get_db, ret.
  rewrite bind_id. destruct (in_int64 user_id); [|reflexivity].
  now destruct (table_select user_id (users (db w))).
Qed.

Lemma read_product_eq product_id w :
  read_product product_id w =
  if in_int64 product_id
  then match table_select product_id (products (db w)) with
       | Some r => (Ok (PRecord (product_record r)), w)
       | None => (Raise (HTTPException 404 "Product not found"), w)
       end
  else (Raise OverflowError, w).
Proof.
  unfold read_product, fetch_one_products, bind, lift, get_db, ret.
  rewrite bind_id. destruct (in_int64 product_id); [|reflexivity].
  now destruct (table_select product_id (products (db w))).
Qed.

Lemma read_order_eq order_id w :
  read_order order_id w =
  if in_int64 order_id
  then match table_select order_id (orders (db w)) with
       | Some r => (Ok (PRecord (order_record r)), w)
       | None => (Raise (HTTPException 404 "Order not found"), w)
       end
  else (Raise OverflowError, w).
Proof.
  unfold read_order, fetch_one_orders, bind, lift, get_db, ret.
  rewrite bind_id. destruct (in_int64 order_id); [|reflexivity].
  now destruct (table_select order_id (orders (db w))).
Qed.

(** After [delete_order] of an id that fits 64 bits, [read_order] of the
    same id raises 404, whether or not a row was there. *)
Lemma delete_order_then_read_order order_id w :
  in_int64 order_id = true ->
  fst (read_order order_id (snd (delete_order order_id w)))
  = Raise (HTTPException 404 "Order not found").
Proof.
  intros R. rewrite delete_order_eq, read_order_eq, R. simpl.
  now rewrite (table_select_absent _ _ (table_delete_absent order_id _)).
Qed.

(** ** Each route as one equation *)

Lemma post_users_eq body w :
  post_users body w =
  (match validate UserCreate body with
   | Some _ => HttpError 500 "Internal Server Error"
   | None => HttpError 422 "Unprocessable Entity"
   end, w).
Proof.
  unfold post_users, route_body, route.
  destruct (validate UserCreate body) eqn:V; [|reflexivity].
  now rewrite (create_user_raises _ _ _ V).
Qed.

Lemma post_products_eq body w :
  post_products body w =
  (match validate ProductCreate body with
   | Some _ => HttpError 500 "Internal Server Error"
   | None => HttpError 422 "Unprocessable Entity"
   end, w).
Proof.
  unfold post_products, route_body, route.
  destruct (validate ProductCreate body) eqn:V; [|reflexivity].
  rewrite (create_product_raises _ _ _ V).
  now destruct (next_rowid (products (db w))).
Qed.

Lemma post_orders_eq body w :
  post_orders body w =
  match validate OrderCreate body with
  | Some _ => (HttpError 500 "Internal Server Error",
               mkWorld (db w) (clock w) (S (reads w)))
  | None => (HttpError 422 "Unprocessable Entity", w)
  end.
Proof.
  unfold post_orders, route_body, route.
  destruct (validate OrderCreate body) eqn:V; [|reflexivity].
  destruct (validate_OrderCreate _ _ V) as (u & p & -> & _).
  rewrite create_order_raises.
  destruct (in_int64 u && in_int64 p); [|reflexivity].
  now destruct (next_rowid (orders (db w))).
Qed.

Lemma put_orders_eq order_id body w :
  put_orders order_id body w =
  (match validate OrderCreate body with
   | Some _ => HttpError 500 "Internal Server Error"
   | None => HttpError 422 "Unprocessable Entity"
   end, w).
Proof.
  unfold put_orders, route_body, route.
  destruct (validate OrderCreate body) eqn:V; [|reflexivity].
  destruct (validate_OrderCreate _ _ V) as (u & p & -> & _).
  rewrite update_order_raises.
  now destruct (in_int64 u && in_int64 p && in_int64 order_id).
Qed.

Lemma get_users_eq user_id w :
  get_users user_id w =
  (if in_int64 user_id
   then match table_select user_id (users (db w)) with
        | Some r => serialize User (PRecord (user_record r))
        | None => HttpError 404 "User not found"
        end
   else HttpError 500 "Internal Server Error", w).
Proof.
  unfold get_users, route. rewrite read_user_eq.
  destruct (in_int64 user_id); [|reflexivity].
  now destruct (table_select user_id (users (db w))).
Qed.

Lemma get_products_eq product_id w :
  get_products product_id w =
  (if in_int64 product_id
   then match table_select product_id (products (db w)) with
        | Some r => serialize Product (PRecord (product_record r))
        | None => HttpError 404 "Product not found"
        end
   else HttpError 500 "Internal Server Error", w).
Proof.
  unfold get_products, route. rewrite read_product_eq.
  destruct (in_int64 product_id); [|reflexivity].
  now destruct (table_select product_id (products (db w))).
Qed.

Lemma get_orders_eq order_id w :
  get_orders order_id w =
  (if in_int64 order_id
   then match table_select order_id (orders (db w)) with
        | Some r => serialize Order (PRecord (order_record r))
        | None => HttpError 404 "Order not found"
        end
   else HttpError 500 "Internal Server Error", w).
Proof.
  unfold get_orders, route. rewrite read_order_eq.
  destruct (in_int64 order_id); [|reflexivity].
  now destruct (table_select order_id (orders (db w))).
Qed.

Lemma delete_orders_eq order_id w :
  delete_orders order_id w =
  (HttpError 500 "Internal Server Error",
   if in_int64 order_id
   then mkWorld (with_orders (table_delete order_id (orders (db w))) (db w))
                (clock w) (reads w)
   else w).
Proof.
  unfold delete_orders, route. rewrite delete_order_eq.
  now destruct (in_int64 order_id).
Qed.

(** The store after one request. *)
Lemma app_db req w :
  db (snd (app req w)) =
  match req with
  | DELETE_orders i =>
      if in_int64 i
      then with_orders (table_delete i (orders (db w))) (db w)
      else db w
  | _ => db w
  end.
Proof.
  destruct req; cbn [app];
    rewrite ?post_users_eq, ?post_products_eq, ?post_orders_eq,
            ?put_orders_eq, ?get_users_eq, ?get_products_eq,
            ?get_orders_eq, ?delete_orders_eq;
    try reflexivity.
  - now destruct (validate OrderCreate body).
  - now destruct (in_int64 order_id).
Qed.

Lemma serve_cons req rest w :
  serve (req :: rest) w =
  (fst (app req w) :: fst (serve rest (snd (app req w))),
   snd (serve rest (snd (app req w)))).
Proof.
  simpl. destruct (app req w) as [resp w']. simpl.
  now destruct (serve rest w').
Qed.

Lemma filter_twice {A : Type} (f g : A -> bool) (l : list A) :
  filter f (filter g l) = filter (fun x => g x && f x) l.
Proof.
  induction l as [|a l IH]; simpl; [reflexivity|].
  destruct (g a); simpl; [|exact IH].
  destruct (f a); now rewrite IH.
Qed.

(** ** Reading *)

Lemma select_public_user i (t1 t2 : Table UserCols) :
  map public_user t1 = map public_user t2 ->
  option_map public_user (table_select i t1)
  = option_map public_user (table_select i t2).
Proof.
  unfold table_select, has_rowid.
  revert t2. induction t1 as [|r1 t1 IH]; intros [|r2 t2] H;
    try discriminate; [reflexivity|].
  cbn [map] in H. assert (Hr : public_user r1 = public_user r2) by congruence.
  assert (Ht : map public_user t1 = map public_user t2) by congruence.
  cbn [find].
  assert (fst r1 = fst r2) as -> by (unfold public_user in Hr; congruence).
  destruct (fst r2 =? i); [|now apply IH].
  cbn [option_map]. f_equal. exact Hr.
Qed.

(** What [response_model=User] sends for a row depends on the four public
    columns only. *)
Lemma serialize_public_user r1 r2 :
  public_user r1 = public_user r2 ->
  serialize User (PRecord (user_record r1))
  = serialize User (PRecord (user_record r2)).
Proof.
  destruct r1 as [i1 [f1 l1 e1 p1]], r2 as [i2 [f2 l2 e2 p2]].
  unfold public_user. simpl. intros [= -> -> -> ->]. reflexivity.
Qed.

Lemma serialize_user_keys r body :
  serialize User (PRecord (user_record r)) = Http200 body ->
  dict_keys body = ["first_name"; "last_name"; "email"; "id"]
  /\ dict_get "password" body = None.
Proof.
  destruct r as [i [f l e p]]. unfold serialize, validate. simpl.
  destruct f, l, e; simpl; try discriminate.
  intros [= <-]. split; reflexivity.
Qed.

(** ** The ids handed to the handlers *)

(** [last_record_id] is the value the handlers bind at lines 122 and 140:
    each handler is its INSERT followed by the rest of its body, inside
    the transaction. *)
Lemma create_product_through_insert product w :
  create_product product w =
  transaction (
    last_record_id <- create_product_insert product ;;
    product <- lift (setattr product "id" last_record_id) ;;
    ret (PObj product)) w.
Proof.
  unfold create_product, create_product_insert, transaction, bind.
  destruct (lift (call_kwargs (obj_dict product) []) w) as [[values|e] w1];
    reflexivity.
Qed.

Lemma create_order_through_insert order w :
  create_order order w =
  transaction (
    last_record_id <- create_order_insert order ;;
    order <- lift (setattr order "id" last_record_id) ;;
    now' <- utcnow ;;
    order <- lift (setattr order "order_date" now') ;;
    order <- lift (setattr order "status" (VStr "Pending")) ;;
    ret (PObj order)) w.
Proof.
  unfold create_order, create_order_insert, transaction, bind.
  destruct (utcnow w) as [[now|e] w1]; [|reflexivity].
  destruct (lift (call_kwargs (obj_dict order) [("order_date", now)]) w1)
    as [[values|e] w2]; reflexivity.
Qed.







(** ** The claims *)

(** C3, as stated, fails for an id that does not fit a signed 64-bit
    integer: no row has the id 2^63, yet the three handlers raise
    [OverflowError] when the id is bound, and the routes answer 500, not
    404. *)
Lemma read_absent_id_beyond_int64 :
  ~ In (2 ^ 63) (rowids (users (db fresh_world)))
  /\ read_user (2 ^ 63) fresh_world = (Raise OverflowError, fresh_world)
  /\ read_product (2 ^ 63) fresh_world = (Raise OverflowError, fresh_world)
  /\ read_order (2 ^ 63) fresh_world = (Raise OverflowError, fresh_world)
  /\ get_users (2 ^ 63) fresh_world
     = (HttpError 500 "Internal Server Error", fresh_world)
  /\ get_products (2 ^ 63) fresh_world
     = (HttpError 500 "Internal Server Error", fresh_world)
  /\ get_orders (2 ^ 63) fresh_world
     = (HttpError 500 "Internal Server Error", fresh_world).
Proof. split; [simpl; tauto | repeat split]. Qed.

(** C3, amended.  For an id that no row of the table carries,
    [read_user], [read_product] and [read_order] return no record,
    partial or default, and leave the world alone: when the id fits a
    signed 64-bit integer they raise [HTTPException(404)] with the
    entity's message and the route answers 404; otherwise they raise
    [OverflowError] and the route answers 500. *)
Theorem read_absent_id_raises (w : World) (i : Z) :
  (~ In i (rowids (users (db w))) ->
   read_user i w
   = (Raise (if in_int64 i then HTTPException 404 "User not found"
             else OverflowError), w)
   /\ get_users i w
      = (if in_int64 i then HttpError 404 "User not found"
         else HttpError 500 "Internal Server Error", w))
  /\ (~ In i (rowids (products (db w))) ->
      read_product i w
      = (Raise (if in_int64 i then HTTPException 404 "Product not found"
                else OverflowError), w)
      /\ get_products i w
         = (if in_int64 i then HttpError 404 "Product not found"
            else HttpError 500 "Internal Server Error", w))
  /\ (~ In i (rowids (orders (db w))) ->
      read_order i w
      = (Raise (if in_int64 i then HTTPException 404 "Order not found"
                else OverflowError), w)
      /\ get_orders i w
         = (if in_int64 i then HttpError 404 "Order not found"
            else HttpError 500 "Internal Server Error", w)).
Proof.
  rewrite read_user_eq, read_product_eq, read_order_eq,
          get_users_eq, get_products_eq, get_orders_eq.
  split; [|split]; intros H; rewrite (table_select_absent _ _ H);
    destruct (in_int64 i); split; reflexivity.
Qed.

Lemma read_absent_id_raises_witness :
  ~ In 1 (rowids (users (db fresh_world)))
  /\ get_users 1 fresh_world = (HttpError 404 "User not found", fresh_world)
  /\ get_products 1 stocked_world
     = (HttpError 404 "Product not found", stocked_world)
  /\ get_orders 2 stocked_world
     = (HttpError 404 "Order not found", stocked_world).
Proof.
  split; [simpl; tauto|].
  split; [apply (proj1 (read_absent_id_raises fresh_world 1)); simpl; tauto|].
  split;
    [apply (proj1 (proj2 (read_absent_id_raises stocked_world 1)));
     simpl; tauto|].
  apply (proj2 (proj2 (read_absent_id_raises stocked_world 2))). simpl. lia.
Defined.

(** C10.  Two stores whose users agree on id, first name, last name and
    email, and differ at most in passwords, get the same answer from
    GET /users/{id}; a 200 answer has exactly the keys first_name,
    last_name, email and id, and so no password. *)
Theorem get_users_hides_password (w1 w2 : World) (i : Z) :
  map public_user (users (db w1)) = map public_user (users (db w2)) ->
  fst (get_users i w1) = fst (get_users i w2)
  /\ (forall body,
        fst (get_users i w1) = Http200 body ->
        dict_keys body = ["first_name"; "last_name"; "email"; "id"]
        /\ dict_get "password" body = None).
Proof.
  intros H. rewrite !get_users_eq. cbn [fst].
  destruct (in_int64 i); [|split; [reflexivity | discriminate]].
  pose proof (select_public_user i _ _ H) as S.
  destruct (table_select i (users (db w1))) as [r1|],
           (table_select i (users (db w2))) as [r2|];
    cbn [option_map] in S; try discriminate.
  - assert (P : public_user r1 = public_user r2) by congruence.
    split; [now apply serialize_public_user|].
    intros body. apply serialize_user_keys.
  - split; [reflexivity | discriminate].
Qed.

Lemma get_users_hides_password_witness :
  password (snd (hd (0, mkUserCols VNone VNone VNone VNone) (users stocked_db)))
  <> password (snd (hd (0, mkUserCols VNone VNone VNone VNone)
                       (users stocked_db_other_password)))
  /\ fst (get_users 1 stocked_world)
     = fst (get_users 1 (mkWorld stocked_db_other_password sample_clock 0)).
Proof.
  split; [discriminate|].
  apply (get_users_hides_password
           stocked_world (mkWorld stocked_db_other_password sample_clock 0) 1).
  reflexivity.
Defined.

(** C9.  For a validated body, the UPDATE that [update_order] issues
    changes neither the id, nor the order_date, nor the status of any
    order, leaves every order with another id as it was, and does not
    touch users or products; and after the handler has run, every order
    still has its id, order_date and status. *)
Theorem update_order_frame
    (w : World) (order_id : Z) (body : Dict) (updated_order : Obj) :
  validate OrderCreate body = Some updated_order ->
  let issued :=
    db (snd (execute_update_orders order_id (obj_dict updated_order) w)) in
  let after := db (snd (update_order order_id updated_order w)) in
  (map order_frame (orders issued) = map order_frame (orders (db w))
   /\ filter (fun r => negb (has_rowid order_id r)) (orders issued)
      = filter (fun r => negb (has_rowid order_id r)) (orders (db w))
   /\ users issued = users (db w)
   /\ products issued = products (db w))
  /\ map order_frame (orders after) = map order_frame (orders (db w))
  /\ users after = users (db w)
  /\ products after = products (db w).
Proof.
  intros V. destruct (validate_OrderCreate _ _ V) as (u & p & -> & _).
  cbv zeta. rewrite update_order_raises. cbn [snd].
  split; [|repeat split].
  rewrite execute_update_orders_eq. cbn [obj_dict attrs].
  change (check_values orders_columns
            [("user_id", VInt u); ("product_id", VInt p)]) with (Ok tt).
  destruct (bind_parameters _); [|repeat split].
  cbn [snd db orders users products with_orders].
  split; [|split; [apply table_update_elsewhere | split; reflexivity]].
  unfold table_update. rewrite map_map. apply map_ext.
  intros [j c]. unfold has_rowid. cbn [fst snd].
  destruct (j =? order_id); reflexivity.
Qed.

Lemma update_order_frame_witness :
  validate OrderCreate [("user_id", VInt 2); ("product_id", VInt 3)]
  = Some (mkObj OrderCreate [("user_id", VInt 2); ("product_id", VInt 3)])
  /\ map order_frame
       (orders (db (snd (execute_update_orders 1
                           [("user_id", VInt 2); ("product_id", VInt 3)]
                           stocked_world))))
     = [(1, VDateTime 5, VStr "Pending")].
Proof.
  split; [reflexivity|].
  apply (update_order_frame stocked_world 1
           [("user_id", VInt 2); ("product_id", VInt 3)]
           (mkObj OrderCreate [("user_id", VInt 2); ("product_id", VInt 3)])).
  reflexivity.
Defined.




(** C1, the code at a failing input: POST /orders/ with user_id 1 and
    product_id 1 on an empty store.  The body validates; the handler
    raises at line 141 because [OrderCreate] has no field [id]; the insert
    is rolled back; the caller gets a server error, and no order can be
    read afterwards. *)
Theorem create_order_stores_nothing :
  validate OrderCreate sample_order_body
  = Some (mkObj OrderCreate sample_order_body)
  /\ create_order (mkObj OrderCreate sample_order_body) fresh_world
     = (Raise (ValueError_no_field OrderCreate "id"),
        mkWorld empty_db sample_clock 1)
  /\ post_orders sample_order_body fresh_world
     = (HttpError 500 "Internal Server Error",
        mkWorld empty_db sample_clock 1)
  /\ fst (get_orders 1 (snd (post_orders sample_order_body fresh_world)))
     = HttpError 404 "Order not found".
Proof. repeat split. Qed.

(** C7, the code at a failing input: POST /users/ with the user of the
    spec's scenario on an empty store.  The email is not stored yet, the
    body validates, and the handler raises at line 103 on the repeated
    keyword [password]; nothing is stored and GET /users/1 answers 404. *)
Theorem create_user_unique_email_fails :
  email_taken (VStr "a@b.com") (users (db fresh_world)) = false
  /\ validate UserCreate sample_user_body
     = Some (mkObj UserCreate sample_user_body)
  /\ create_user (mkObj UserCreate sample_user_body) fresh_world
     = (Raise (TypeError_multiple_values "password"), fresh_world)
  /\ post_users sample_user_body fresh_world
     = (HttpError 500 "Internal Server Error", fresh_world)
  /\ fst (get_users 1 (snd (post_users sample_user_body fresh_world)))
     = HttpError 404 "User not found".
Proof. repeat split. Qed.

(** C2, the code at a failing input: the same user posted twice.  The
    second call fails like the first, on the repeated keyword of line
    103, not on the unique index, which no statement ever reaches; the
    users table stays empty. *)
Theorem create_user_twice_never_reaches_the_index :
  let w1 := snd (post_users sample_user_body fresh_world) in
  create_user (mkObj UserCreate sample_user_body) w1
  = (Raise (TypeError_multiple_values "password"), w1)
  /\ fst (create_user (mkObj UserCreate sample_user_body) w1)
     <> Raise (IntegrityError_unique "users.email")
  /\ users (db w1) = []
  /\ users (db (snd (post_users sample_user_body w1))) = [].
Proof. cbv zeta. repeat split. discriminate. Qed.

(** C4, the code at a failing input: PUT /orders/7 on an empty store.
    The handler does not look at what the UPDATE matched; it raises at
    line 161, and the answer is a server error, not 404. *)
Theorem update_order_absent_id_is_not_404 :
  ~ In 7 (rowids (orders (db fresh_world)))
  /\ update_order 7 (mkObj OrderCreate sample_order_body) fresh_world
     = (Raise (ValueError_no_field OrderCreate "id"), fresh_world)
  /\ put_orders 7 sample_order_body fresh_world
     = (HttpError 500 "Internal Server Error", fresh_world).
Proof. split; [simpl; tauto | split; reflexivity]. Qed.

(** C5, the code at a failing input: DELETE /orders/1 on an empty store.
    [execute] returns the row count 0, which is not [None], so line 170 is
    not reached: the handler returns 0 and the answer is a server error
    (0 is no [Order]), not 404. *)
Theorem delete_order_absent_id_is_not_404 :
  ~ In 1 (rowids (orders (db fresh_world)))
  /\ delete_order 1 fresh_world = (Ok (PVal (VInt 0)), fresh_world)
  /\ delete_orders 1 fresh_world
     = (HttpError 500 "Internal Server Error", fresh_world).
Proof. split; [simpl; tauto | split; reflexivity]. Qed.

(** C6, the code at a failing input: PUT /orders/1 with user_id 2 and
    product_id 3 on a store that holds order 1 of user 1 and product 1.
    The handler raises at line 161 and the UPDATE is rolled back:
    GET /orders/1 still shows user 1 and product 1. *)
Theorem update_order_then_read_order_shows_old_values :
  fst (read_order 1 stocked_world)
  = Ok (PRecord [("id", VInt 1); ("user_id", VInt 1); ("product_id", VInt 1);
                 ("order_date", VDateTime 5); ("status", VStr "Pending")])
  /\ update_order 1
       (mkObj OrderCreate [("user_id", VInt 2); ("product_id", VInt 3)])
       stocked_world
     = (Raise (ValueError_no_field OrderCreate "id"), stocked_world)
  /\ fst (get_orders 1
            (snd (put_orders 1 [("user_id", VInt 2); ("product_id", VInt 3)]
                             stocked_world)))
     = Http200 [("user_id", VInt 1); ("product_id", VInt 1); ("id", VInt 1);
                ("order_date", VDateTime 5); ("status", VStr "Pending")].
Proof. repeat split. Qed.

(** * Further properties of the handlers and the store *)

(** On an empty store no request is answered with 200, and the store
    stays empty. *)
Lemma app_on_empty_store req w :
  db w = empty_db ->
  is_200 (fst (app req w)) = false /\ db (snd (app req w)) = empty_db.
Proof.
  intros E. split.
  - destruct req as [body|uid|body|pid|body|oid|oid body|oid]; cbn [app];
      rewrite ?post_users_eq, ?post_products_eq, ?post_orders_eq,
              ?put_orders_eq, ?get_users_eq, ?get_products_eq,
              ?get_orders_eq, ?delete_orders_eq;
      rewrite ?E; cbn [fst]; try reflexivity.
    + now destruct (validate UserCreate body).
    + now destruct (in_int64 uid).
    + now destruct (validate ProductCreate body).
    + now destruct (in_int64 pid).
    + now destruct (validate OrderCreate body).
    + now destruct (in_int64 oid).
    + now destruct (validate OrderCreate body).
  - rewrite app_db, E. destruct req; try reflexivity.
    now destruct (in_int64 order_id).
Qed.

(** ** The application as a whole *)

(** X1.  What one request does to the world.  Of the eight routes only
    DELETE /orders/{id} changes the store: it removes the orders with
    that id when the id fits 64 bits, and nothing otherwise.
    POST /orders/ leaves the store and the clock's course alone, and
    reads the clock once when its body validates as it stands.  Every
    other request leaves the world exactly as it was. *)
Theorem app_effect (req : Request) (w : World) :
  match req with
  | DELETE_orders i =>
      snd (app req w)
      = if in_int64 i
        then mkWorld (with_orders (table_delete i (orders (db w))) (db w))
                     (clock w) (reads w)
        else w
  | POST_orders body =>
      db (snd (app req w)) = db w
      /\ clock (snd (app req w)) = clock w
      /\ (forall order,
            validate OrderCreate body = Some order ->
            reads (snd (app req w)) = S (reads w))
  | _ => snd (app req w) = w
  end.
Proof.
  destruct req; cbn [app];
    rewrite ?post_users_eq, ?post_products_eq, ?post_orders_eq,
            ?put_orders_eq, ?get_users_eq, ?get_products_eq,
            ?get_orders_eq, ?delete_orders_eq;
    try reflexivity.
  destruct (validate OrderCreate body); repeat split; discriminate.
Qed.

Lemma app_effect_witness :
  validate OrderCreate sample_order_body
  = Some (mkObj OrderCreate sample_order_body)
  /\ reads (snd (app (POST_orders sample_order_body) stocked_world))
     = S (reads stocked_world).
Proof.
  split; [reflexivity|].
  apply (proj2 (proj2 (app_effect (POST_orders sample_order_body)
                                  stocked_world))
           (mkObj OrderCreate sample_order_body)).
  reflexivity.
Defined.

(** X2.  The four routes that take a body never answer 200, whatever the
    body and the store; a body that validates as it stands is answered
    500 (TypeError at line 103, ValueError at lines 123, 141, 161, or
    OverflowError from the statement). *)
Theorem body_routes_never_succeed (body : Dict) (order_id : Z) (w : World) :
  (is_200 (fst (post_users body w)) = false
   /\ is_200 (fst (post_products body w)) = false
   /\ is_200 (fst (post_orders body w)) = false
   /\ is_200 (fst (put_orders order_id body w)) = false)
  /\ (forall user,
         validate UserCreate body = Some user ->
         fst (post_users body w) = HttpError 500 "Internal Server Error")
  /\ (forall product,
         validate ProductCreate body = Some product ->
         fst (post_products body w) = HttpError 500 "Internal Server Error")
  /\ (forall order,
         validate OrderCreate body = Some order ->
         fst (post_orders body w) = HttpError 500 "Internal Server Error"
         /\ fst (put_orders order_id body w)
            = HttpError 500 "Internal Server Error").
Proof.
  rewrite post_users_eq, post_products_eq, post_orders_eq, put_orders_eq.
  split; [|split; [|split]].
  - destruct (validate UserCreate body), (validate ProductCreate body),
      (validate OrderCreate body); repeat split.
  - intros user ->. reflexivity.
  - intros product ->. reflexivity.
  - intros order ->. split; reflexivity.
Qed.

Lemma body_routes_never_succeed_witness :
  validate OrderCreate sample_order_body
  = Some (mkObj OrderCreate sample_order_body)
  /\ fst (post_orders sample_order_body stocked_world)
     = HttpError 500 "Internal Server Error"
  /\ fst (put_orders 1 sample_order_body stocked_world)
     = HttpError 500 "Internal Server Error".
Proof.
  split; [reflexivity|].
  apply (proj2 (proj2 (proj2 (body_routes_never_succeed
                                sample_order_body 1 stocked_world)))
           (mkObj OrderCreate sample_order_body)).
  reflexivity.
Defined.

(** X3.  After any list of requests the users and the products are the
    ones the store started with, and the orders are the ones it started
    with minus those whose id a DELETE request named. *)
Theorem serve_store (reqs : list Request) (w : World) :
  users (db (snd (serve reqs w))) = users (db w)
  /\ products (db (snd (serve reqs w))) = products (db w)
  /\ orders (db (snd (serve reqs w)))
     = filter (fun r => negb (existsb (Z.eqb (fst r)) (deleted_ids reqs)))
              (orders (db w)).
Proof.
  revert w. induction reqs as [|req rest IH]; intros w.
  - cbn [serve snd deleted_ids existsb negb].
    repeat split. symmetry. apply forallb_filter_id.
    now apply forallb_forall.
  - rewrite serve_cons. cbn [snd].
    destruct (IH (snd (app req w))) as (U & P & O).
    rewrite U, P, O, app_db.
    destruct req; cbn [deleted_ids]; try (repeat split; reflexivity).
    destruct (in_int64 order_id); [|repeat split; reflexivity].
    cbn [users products orders with_orders existsb].
    repeat split. unfold table_delete, has_rowid. rewrite filter_twice.
    apply filter_ext. intros r. now rewrite negb_orb.
Qed.

(** X4.  A service started on an empty store never answers 200 to a
    request on one of its eight routes, and never stores anything,
    whatever such requests it is sent. *)
Theorem serve_from_empty_store (reqs : list Request) (w : World) :
  db w = empty_db ->
  db (snd (serve reqs w)) = empty_db
  /\ Forall (fun resp => is_200 resp = false) (fst (serve reqs w)).
Proof.
  revert w. induction reqs as [|req rest IH]; intros w E.
  - split; [exact E | constructor].
  - rewrite serve_cons. cbn [fst snd].
    destruct (app_on_empty_store req w E) as [R E'].
    destruct (IH _ E') as [D F].
    split; [exact D | now constructor].
Qed.

Lemma serve_from_empty_store_witness :
  db fresh_world = empty_db
  /\ fst (serve [POST_users sample_user_body; POST_orders sample_order_body;
                 GET_users 1; GET_orders 1; DELETE_orders 1] fresh_world)
     = [HttpError 500 "Internal Server Error";
        HttpError 500 "Internal Server Error";
        HttpError 404 "User not found";
        HttpError 404 "Order not found";
        HttpError 500 "Internal Server Error"]
  /\ db (snd (serve [POST_users sample_user_body;
                     POST_orders sample_order_body;
                     GET_users 1; GET_orders 1; DELETE_orders 1]
                    fresh_world))
     = empty_db.
Proof.
  split; [reflexivity|]. split; [reflexivity|].
  apply (serve_from_empty_store
           [POST_users sample_user_body; POST_orders sample_order_body;
            GET_users 1; GET_orders 1; DELETE_orders 1] fresh_world).
  reflexivity.
Defined.

(** ** Reading and deleting rows *)

Lemma table_select_unique {C : Type} (t : Table C) (i : Z) (c : C) :
  NoDup (rowids t) -> In (i, c) t -> table_select i t = Some (i, c).
Proof.
  unfold table_select, rowids, has_rowid.
  induction t as [|[j c'] t IH]; intros N H; [contradiction|].
  cbn [map fst] in N. inversion N as [|? ? Hj N']; subst.
  cbn [find fst]. destruct H as [H|H].
  - injection H as -> ->. now rewrite Z.eqb_refl.
  - destruct (Z.eqb_spec j i) as [->|_]; [|now apply IH].
    exfalso. apply Hj. change i with (fst (i, c)). now apply in_map.
Qed.

Lemma rowcount_unique {C : Type} (t : Table C) (i : Z) :
  NoDup (rowids t) ->
  rowcount i t = if existsb (Z.eqb i) (rowids t) then 1 else 0.
Proof.
  unfold rowcount, rowids, has_rowid.
  induction t as [|[j c] t IH]; intros N; [reflexivity|].
  cbn [map fst] in N. inversion N as [|? ? Hj N']; subst.
  cbn [filter map existsb fst]. rewrite (Z.eqb_sym i j).
  destruct (Z.eqb_spec j i) as [->|_]; cbn [orb]; [|now apply IH].
  assert (F : filter (fun r : Z * C => fst r =? i) t = []).
  { clear -Hj. induction t as [|[k c'] t IH]; [reflexivity|].
    cbn [filter fst]. cbn [map fst] in Hj.
    destruct (Z.eqb_spec k i) as [->|_]; [exfalso; apply Hj; now left|].
    apply IH. intros H. apply Hj. now right. }
  now rewrite F.
Qed.

Lemma table_select_delete {C : Type} (t : Table C) (i j : Z) :
  table_select j (table_delete i t)
  = if j =? i then None else table_select j t.
Proof.
  unfold table_select, table_delete, has_rowid.
  induction t as [|[k c] t IH]; cbn [filter find fst].
  - now destruct (j =? i).
  - destruct (Z.eqb_spec k i) as [Eki|Hki]; cbn [negb find fst].
    + rewrite IH. destruct (Z.eqb_spec j i) as [Eji|Hji]; [reflexivity|].
      destruct (Z.eqb_spec k j); [congruence | reflexivity].
    + destruct (Z.eqb_spec k j) as [Ekj|Hkj]; [|exact IH].
      destruct (Z.eqb_spec j i); [congruence | reflexivity].
Qed.

(** X5.  With pairwise distinct order ids, [delete_order] on an id that
    fits 64 bits hands back 1 when an order with the id was stored and 0
    when none was, never [None]; on any other id the statement raises
    [OverflowError].  DELETE /orders/{id} answers 500 in all three cases:
    an integer does not validate against [Order]. *)
Theorem delete_order_returns_row_count (order_id : Z) (w : World) :
  NoDup (rowids (orders (db w))) ->
  fst (delete_order order_id w)
  = (if in_int64 order_id
     then Ok (PVal (VInt (if existsb (Z.eqb order_id)
                                     (rowids (orders (db w)))
                          then 1 else 0)))
     else Raise OverflowError)
  /\ fst (delete_orders order_id w) = HttpError 500 "Internal Server Error".
Proof.
  intros N. rewrite delete_order_eq, delete_orders_eq. cbn [fst].
  split; [|reflexivity].
  destruct (in_int64 order_id); [|reflexivity]. cbn [fst].
  now rewrite (rowcount_unique _ _ N).
Qed.

Lemma delete_order_returns_row_count_witness :
  NoDup (rowids (orders (db stocked_world)))
  /\ fst (delete_order 1 stocked_world) = Ok (PVal (VInt 1))
  /\ fst (delete_orders 1 stocked_world)
     = HttpError 500 "Internal Server Error".
Proof.
  assert (N : NoDup (rowids (orders (db stocked_world)))).
  { repeat constructor. simpl. tauto. }
  split; [exact N|].
  apply (delete_order_returns_row_count 1 stocked_world N).
Defined.

(** X6.  Deleting the same order twice leaves the world the first delete
    left, and two deletes can be swapped. *)
Theorem delete_order_twice_and_swapped (i j : Z) (w : World) :
  snd (delete_order i (snd (delete_order i w))) = snd (delete_order i w)
  /\ snd (delete_order j (snd (delete_order i w)))
     = snd (delete_order i (snd (delete_order j w))).
Proof.
  rewrite !delete_order_eq.
  destruct (in_int64 i), (in_int64 j);
    cbn [snd db clock reads orders with_orders];
    try (split; reflexivity).
  unfold with_orders. cbn [users products orders].
  unfold table_delete. rewrite !filter_twice. split; f_equal; f_equal.
  - apply filter_ext. intros r. now destruct (negb (has_rowid i r)).
  - apply filter_ext. intros r. apply andb_comm.
  - split; [|reflexivity]. unfold with_orders. cbn [users products orders].
    unfold table_delete. rewrite filter_twice. f_equal. f_equal.
    apply filter_ext. intros r. now destruct (negb (has_rowid i r)).
Qed.

(** X7.  A stored row whose id no other row of its table carries is what
    [read_user], [read_product] and [read_order] return for that id, all
    columns included, and reading leaves the world as it was.  (The ids a
    SQLite table holds fit 64 bits; for an id that does not, the handler
    raises [OverflowError].) *)
Theorem read_returns_stored_row (w : World) (i : Z) :
  (forall c, NoDup (rowids (users (db w))) -> In (i, c) (users (db w)) ->
             read_user i w
             = (if in_int64 i then Ok (PRecord (user_record (i, c)))
                else Raise OverflowError, w))
  /\ (forall c, NoDup (rowids (products (db w))) ->
                In (i, c) (products (db w)) ->
                read_product i w
                = (if in_int64 i then Ok (PRecord (product_record (i, c)))
                   else Raise OverflowError, w))
  /\ (forall c, NoDup (rowids (orders (db w))) ->
                In (i, c) (orders (db w)) ->
                read_order i w
                = (if in_int64 i then Ok (PRecord (order_record (i, c)))
                   else Raise OverflowError, w)).
Proof.
  rewrite read_user_eq, read_product_eq, read_order_eq.
  split; [|split]; intros c N H; rewrite (table_select_unique _ _ _ N H);
    now destruct (in_int64 i).
Qed.

Lemma read_returns_stored_row_witness :
  NoDup (rowids (users (db stocked_world)))
  /\ read_user 1 stocked_world
     = (Ok (PRecord [("id", VInt 1); ("first_name", VStr "A");
                     ("last_name", VStr "B"); ("email", VStr "a@b.com");
                     ("password", VStr "x")]), stocked_world)
  /\ read_order 2 two_orders_world
     = (Ok (PRecord [("id", VInt 2); ("user_id", VInt 1);
                     ("product_id", VInt 1); ("order_date", VDateTime 6);
                     ("status", VNone)]), two_orders_world).
Proof.
  assert (N : NoDup (rowids (users (db stocked_world)))).
  { repeat constructor. simpl. tauto. }
  split; [exact N|]. split.
  - apply (proj1 (read_returns_stored_row stocked_world 1)
             (mkUserCols (VStr "A") (VStr "B") (VStr "a@b.com") (VStr "x")));
      [exact N|].
    simpl. now left.
  - apply (proj2 (proj2 (read_returns_stored_row two_orders_world 2))
             (mkOrderCols (VInt 1) (VInt 1) (VDateTime 6) VNone)).
    + repeat constructor; simpl; intuition lia.
    + simpl. right. now left.
Defined.

(** X8.  For a stored row with a unique id that fits 64 bits, whose cells
    have the types the response class declares and whose price, for a
    product, is a finite number, the GET route answers 200 with exactly
    the declared fields and the stored values (for a user: without the
    password, whatever it is), and leaves the world as it was. *)
Theorem get_answers_stored_values (w : World) (i : Z) :
  in_int64 i = true ->
  (forall f l e pw,
      NoDup (rowids (users (db w))) ->
      In (i, mkUserCols (VStr f) (VStr l) (VStr e) pw) (users (db w)) ->
      get_users i w
      = (Http200 [("first_name", VStr f); ("last_name", VStr l);
                  ("email", VStr e); ("id", VInt i)], w))
  /\ (forall n d p,
         NoDup (rowids (products (db w))) ->
         In (i, mkProductCols (VStr n) (VStr d) (VFloat p)) (products (db w)) ->
         float_finite p = true ->
         get_products i w
         = (Http200 [("name", VStr n); ("description", VStr d);
                     ("price", VFloat p); ("id", VInt i)], w))
  /\ (forall u p d s,
         NoDup (rowids (orders (db w))) ->
         In (i, mkOrderCols (VInt u) (VInt p) (VDateTime d) (VStr s))
            (orders (db w)) ->
         get_orders i w
         = (Http200 [("user_id", VInt u); ("product_id", VInt p);
                     ("id", VInt i); ("order_date", VDateTime d);
                     ("status", VStr s)], w)).
Proof.
  intros R. rewrite get_users_eq, get_products_eq, get_orders_eq, R.
  split; [|split].
  - intros f l e pw N H. now rewrite (table_select_unique _ _ _ N H).
  - intros n d p N H F. rewrite (table_select_unique _ _ _ N H).
    unfold serialize, validate. cbn. now rewrite F.
  - intros u p d s N H. now rewrite (table_select_unique _ _ _ N H).
Qed.

Lemma get_answers_stored_values_witness :
  NoDup (rowids (orders (db two_orders_world)))
  /\ get_orders 1 two_orders_world
     = (Http200 [("user_id", VInt 1); ("product_id", VInt 1); ("id", VInt 1);
                 ("order_date", VDateTime 5); ("status", VStr "Pending")],
        two_orders_world)
  /\ get_products 1 two_orders_world
     = (Http200 [("name", VStr "Widget"); ("description", VStr "d");
                 ("price", VFloat 9); ("id", VInt 1)], two_orders_world).
Proof.
  assert (N : NoDup (rowids (orders (db two_orders_world)))).
  { repeat constructor; simpl; intuition lia. }
  split; [exact N|]. split.
  - apply (proj2 (proj2 (get_answers_stored_values two_orders_world 1
                           eq_refl))
             1 1 5 "Pending" N).
    simpl. now left.
  - apply (proj1 (proj2 (get_answers_stored_values two_orders_world 1
                           eq_refl))
             "Widget" "d" 9).
    + repeat constructor. simpl. tauto.
    + simpl. now left.
    + reflexivity.
Defined.

(** X9.  A stored order with NULL in one of its four columns is not sent
    with a hole or a default: GET /orders/{id} answers 500. *)
Theorem get_orders_null_cell (w : World) (i : Z) (c : OrderCols) :
  NoDup (rowids (orders (db w))) ->
  In (i, c) (orders (db w)) ->
  is_None (user_id c) || is_None (product_id c)
  || is_None (order_date c) || is_None (status c) = true ->
  get_orders i w = (HttpError 500 "Internal Server Error", w).
Proof.
  intros N H Z0. rewrite get_orders_eq, (table_select_unique _ _ _ N H).
  f_equal. destruct (in_int64 i); [|reflexivity].
  destruct c as [u p d s]. cbn [user_id product_id order_date status] in Z0.
  unfold serialize, validate. cbn.
  destruct u; try reflexivity.
  destruct p; try reflexivity.
  destruct d; try reflexivity.
  destruct s; try reflexivity.
  discriminate.
Qed.

Lemma get_orders_null_cell_witness :
  In (2, mkOrderCols (VInt 1) (VInt 1) (VDateTime 6) VNone)
     (orders (db two_orders_world))
  /\ get_orders 2 two_orders_world
     = (HttpError 500 "Internal Server Error", two_orders_world).
Proof.
  assert (H : In (2, mkOrderCols (VInt 1) (VInt 1) (VDateTime 6) VNone)
                 (orders (db two_orders_world))).
  { simpl. right. now left. }
  split; [exact H|].
  apply (get_orders_null_cell two_orders_world 2
           (mkOrderCols (VInt 1) (VInt 1) (VDateTime 6) VNone));
    [|exact H|reflexivity].
  repeat constructor; simpl; intuition lia.
Defined.

(** X10.  After DELETE /orders/i with an id that fits 64 bits,
    GET /orders/i answers 404; with any other id the DELETE removes
    nothing.  In both cases GET /orders/j for another j, GET /users/ and
    GET /products/ answer what they answered before. *)
Theorem delete_orders_frame (i j : Z) (w : World) :
  fst (get_orders j (snd (delete_orders i w)))
  = (if (j =? i) && in_int64 i then HttpError 404 "Order not found"
     else fst (get_orders j w))
  /\ fst (get_users j (snd (delete_orders i w))) = fst (get_users j w)
  /\ fst (get_products j (snd (delete_orders i w))) = fst (get_products j w).
Proof.
  rewrite delete_orders_eq, !get_orders_eq, !get_users_eq, !get_products_eq.
  cbn [fst snd]. destruct (in_int64 i) eqn:R;
    [|rewrite andb_false_r; repeat split].
  cbn [db orders users products with_orders].
  rewrite table_select_delete, andb_true_r.
  split; [|split; reflexivity].
  destruct (Z.eqb_spec j i) as [->|_]; [now rewrite R | reflexivity].
Qed.

(** ** Request bodies *)

Lemma validate_fields_ext fs b1 b2 :
  (forall k, In k (map fst fs) -> dict_get k b1 = dict_get k b2) ->
  validate_fields fs b1 = validate_fields fs b2.
Proof.
  induction fs as [|[k t] fs IH]; intros H; [reflexivity|].
  cbn [validate_fields]. rewrite (H k) by now left.
  rewrite IH; [reflexivity|]. intros k' Hk'. apply H. now right.
Qed.

Lemma validate_fields_unusable fs k b :
  In k (map fst fs) ->
  dict_get k b = None \/ dict_get k b = Some VNone ->
  validate_fields fs b = None.
Proof.
  induction fs as [|[k' t] fs IH]; intros H D; [contradiction|].
  cbn [validate_fields]. destruct H as [H|H].
  - cbn [fst] in H. subst k'. destruct D as [-> | ->]; [reflexivity|].
    now destruct t.
  - rewrite (IH H D). destruct (dict_get k' b); [|reflexivity].
    now destruct (has_ty t v).
Qed.

(** X11.  A route reads its body through the declared fields of the
    request class only.  Two bodies that agree on those fields are treated
    alike, so a status, an order_date or an id sent along has no effect;
    a body in which a declared field is missing or null is answered 422
    and the handler does not run. *)
Theorem route_body_reads_declared_fields
    (request_model response_model : ModelClass) (handler : Obj -> M PyVal)
    (w : World) :
  (forall b1 b2,
      (forall k, In k (field_names request_model) ->
                 dict_get k b1 = dict_get k b2) ->
      route_body request_model response_model handler b1 w
      = route_body request_model response_model handler b2 w)
  /\ (forall body k,
         In k (field_names request_model) ->
         dict_get k body = None \/ dict_get k body = Some VNone ->
         route_body request_model response_model handler body w
         = (HttpError 422 "Unprocessable Entity", w)).
Proof.
  unfold route_body, validate, field_names. split.
  - intros b1 b2 H. now rewrite (validate_fields_ext _ _ _ H).
  - intros body k H D. now rewrite (validate_fields_unusable _ _ _ H D).
Qed.

Lemma route_body_reads_declared_fields_witness :
  post_orders (sample_order_body
               ++ [("status", VStr "Shipped"); ("order_date", VDateTime 0);
                   ("id", VInt 99)]) fresh_world
  = post_orders sample_order_body fresh_world
  /\ post_orders [("user_id", VInt 1)] fresh_world
     = (HttpError 422 "Unprocessable Entity", fresh_world).
Proof.
  split.
  - apply (proj1 (route_body_reads_declared_fields
                    OrderCreate Order create_order fresh_world)).
    intros k [<-|[<-|[]]]; reflexivity.
  - apply (proj2 (route_body_reads_declared_fields
                    OrderCreate Order create_order fresh_world)
             [("user_id", VInt 1)] "product_id").
    + simpl. tauto.
    + left. reflexivity.
Defined.

(** ** The statements: insert, then fetch *)



Lemma fetch_one_orders_eq i w :
  fst (fetch_one_orders i w)
  = if in_int64 i
    then Ok (option_map order_record (table_select i (orders (db w))))
    else Raise OverflowError.
Proof.
  unfold fetch_one_orders, bind, lift, get_db, ret. rewrite bind_id.
  now destruct (in_int64 i).
Qed.



(** ** The unique index on users.email *)

Lemma Val_eqb_eq (a b : Val) : Val_eqb a b = true <-> a = b.
Proof.
  destruct a, b; simpl; split; intros H; try discriminate; try reflexivity.
  - apply Z.eqb_eq in H. now subst.
  - injection H as ->. apply Z.eqb_refl.
  - apply Z.eqb_eq in H. now subst.
  - injection H as ->. apply Z.eqb_refl.
  - apply String.eqb_eq in H. now subst.
  - injection H as ->. apply String.eqb_refl.
  - apply Z.eqb_eq in H. now subst.
  - injection H as ->. apply Z.eqb_refl.
Qed.

Lemma in_stored_emails (e : Val) (t : Table UserCols) :
  In e (stored_emails t) <-> email_taken e t = true.
Proof.
  unfold stored_emails, email_taken.
  rewrite filter_In, in_map_iff, andb_true_iff, existsb_exists.
  split.
  - intros [(r & E & H) N]. split; [exact N|].
    exists r. split; [exact H|]. now apply Val_eqb_eq.
  - intros [N (r & H & E)]. split; [|exact N].
    exists r. split; [now apply Val_eqb_eq | exact H].
Qed.

Lemma stored_emails_insert (t : Table UserCols) (i : Z) (c : UserCols) :
  stored_emails (t ++ [(i, c)])
  = stored_emails t ++ (if is_None (email c) then [] else [email c]).
Proof.
  unfold stored_emails. rewrite map_app, filter_app. cbn [map filter snd].
  now destruct (is_None (email c)).
Qed.

(** The users table after one statement: as before, or with one more row
    whose email was not taken. *)
Lemma execute_users s w :
  users (db (snd (execute s w))) = users (db w)
  \/ exists i c,
       users (db (snd (execute s w))) = users (db w) ++ [(i, c)]
       /\ email_taken (email c) (users (db w)) = false.
Proof.
  destruct s as [values|values|values|order_id values|order_id];
    cbn [execute].
  - rewrite execute_insert_users_eq.
    destruct (check_values users_columns values); [|now left].
    destruct (email_taken _ _) eqn:E; [now left|].
    destruct (next_rowid (users (db w))); [|now left].
    right. now eexists _, _.
  - rewrite execute_insert_products_eq.
    destruct (check_values products_columns values); [|now left].
    destruct (next_rowid (products (db w))); now left.
  - rewrite execute_insert_orders_eq.
    destruct (check_values orders_columns values); [|now left].
    destruct (bind_parameters _); [|now left].
    destruct (next_rowid (orders (db w))); now left.
  - rewrite execute_update_orders_eq.
    destruct (check_values orders_columns values); [|now left].
    destruct (bind_parameters _); now left.
  - rewrite execute_delete_orders_eq.
    destruct (in_int64 order_id); now left.
Qed.

Lemma run_cons s rest w :
  run (s :: rest) w =
  match execute s w with
  | (Ok v, w') =>
      (match insert_target s with
       | Some tb => (tb, v) :: fst (run rest w')
       | None => fst (run rest w')
       end, snd (run rest w'))
  | (Raise _, w') => run rest w'
  end.
Proof.
  simpl. destruct (execute s w) as [[v|e] w']; [|reflexivity].
  now destruct (run rest w').
Qed.

Lemma run_snd_cons s rest w :
  snd (run (s :: rest) w) = snd (run rest (snd (execute s w))).
Proof.
  rewrite run_cons. now destruct (execute s w) as [[v|e] w'].
Qed.

(** X13.  No two users ever share a non-NULL email: whatever statements
    run, the stored emails stay pairwise distinct; and an insert into
    users whose email is already stored raises the integrity error and
    changes nothing. *)
Theorem emails_stay_unique (stmts : list Stmt) (w : World) :
  NoDup (stored_emails (users (db w))) ->
  NoDup (stored_emails (users (db (snd (run stmts w)))))
  /\ (forall values,
         check_values users_columns values = Ok tt ->
         In (cell "email" values VNone) (stored_emails (users (db w))) ->
         execute_insert_users values w
         = (Raise (IntegrityError_unique "users.email"), w)).
Proof.
  intros N. split.
  - revert w N. induction stmts as [|s rest IH]; intros w N; [exact N|].
    rewrite run_snd_cons. apply IH.
    destruct (execute_users s w) as [-> | (i & c & -> & T)]; [exact N|].
    rewrite stored_emails_insert.
    destruct (is_None (email c)) eqn:E; [now rewrite app_nil_r|].
    apply NoDup_app; [exact N | repeat constructor; simpl; tauto |].
    intros x Hx [<-|[]]. apply in_stored_emails in Hx. congruence.
  - intros values C H. rewrite execute_insert_users_eq, C.
    apply in_stored_emails in H.
    change (email (users_row values)) with (cell "email" values VNone).
    now rewrite H.
Qed.

Lemma emails_stay_unique_witness :
  NoDup (stored_emails (users (db stocked_world)))
  /\ execute_insert_users sample_user_body stocked_world
     = (Raise (IntegrityError_unique "users.email"), stocked_world)
  /\ NoDup (stored_emails
              (users (db (snd (run [InsertUsers sample_user_body;
                                    InsertUsers
                                      [("first_name", VStr "C");
                                       ("email", VStr "c@d.com")]]
                                   stocked_world))))).
Proof.
  assert (N : NoDup (stored_emails (users (db stocked_world)))).
  { repeat constructor. simpl. tauto. }
  split; [exact N|]. split.
  - apply (proj2 (emails_stay_unique [] stocked_world N) sample_user_body);
      [reflexivity | simpl; now left].
  - apply (proj1 (emails_stay_unique
                    [InsertUsers sample_user_body;
                     InsertUsers [("first_name", VStr "C");
                                  ("email", VStr "c@d.com")]]
                    stocked_world N)).
Defined.

(** ** The update statement *)

Lemma table_select_update {C : Type} (t : Table C) (i j : Z) (f : C -> C) :
  table_select j (table_update i f t)
  = option_map (fun r => if has_rowid i r then (fst r, f (snd r)) else r)
               (table_select j t).
Proof.
  unfold table_select, table_update, has_rowid.
  induction t as [|[k c] t IH]; simpl; [reflexivity|].
  destruct (k =? i) eqn:E; simpl;
    (destruct (k =? j); [simpl; now rewrite E | exact IH]).
Qed.

Lemma table_update_absent {C : Type} (t : Table C) (i : Z) (f : C -> C) :
  ~ In i (rowids t) -> table_update i f t = t.
Proof.
  unfold table_update, rowids, has_rowid.
  induction t as [|[k c] t IH]; simpl; intros H; [reflexivity|].
  destruct (Z.eqb_spec k i) as [E|_]; [tauto|].
  f_equal. apply IH. tauto.
Qed.

Lemma table_update_twice {C : Type} (t : Table C) (i : Z) (f : C -> C) :
  (forall c, f (f c) = f c) ->
  table_update i f (table_update i f t) = table_update i f t.
Proof.
  intros F. unfold table_update, has_rowid. rewrite map_map.
  apply map_ext. intros [k c]. simpl.
  destruct (k =? i) eqn:E; simpl; rewrite E; [now rewrite F | reflexivity].
Qed.

Lemma orders_set_twice values c :
  orders_set values (orders_set values c) = orders_set values c.
Proof.
  unfold orders_set, cell. simpl.
  destruct (dict_get "user_id" values), (dict_get "product_id" values),
    (dict_get "order_date" values), (dict_get "status" values); reflexivity.
Qed.

(** X14.  The UPDATE that [update_order] builds, taken on its own (before
    the handler undoes it), with an id and two values that fit 64 bits:
    on a store with pairwise distinct order ids it reports one row for a
    stored id, and fetching the id afterwards yields the new user_id and
    product_id with the order_date and status the row had. *)
Theorem update_then_fetch_one (w : World) (i u p : Z) (c : OrderCols) :
  in_int64 i = true -> in_int64 u = true -> in_int64 p = true ->
  NoDup (rowids (orders (db w))) ->
  In (i, c) (orders (db w)) ->
  let values := [("user_id", VInt u); ("product_id", VInt p)] in
  fst (execute_update_orders i values w) = Ok (VInt 1)
  /\ fst (fetch_one_orders i (snd (execute_update_orders i values w)))
     = Ok (Some [("id", VInt i); ("user_id", VInt u); ("product_id", VInt p);
                 ("order_date", order_date c); ("status", status c)]).
Proof.
  intros Ri Ru Rp N H values. unfold values.
  rewrite fetch_one_orders_eq, Ri, execute_update_orders_eq.
  change (check_values orders_columns
            [("user_id", VInt u); ("product_id", VInt p)]) with (Ok tt).
  unfold bind_parameters. cbn [map snd List.app forallb bindable].
  rewrite Ri, Ru, Rp. cbn [andb fst snd db orders with_orders]. split.
  - rewrite (rowcount_unique _ _ N).
    assert (E : existsb (Z.eqb i) (rowids (orders (db w))) = true).
    { apply existsb_exists. exists i. split; [|apply Z.eqb_refl].
      unfold rowids. change i with (fst (i, c)). now apply in_map. }
    now rewrite E.
  - rewrite table_select_update, (table_select_unique _ _ _ N H).
    unfold has_rowid. cbn [option_map fst snd]. now rewrite Z.eqb_refl.
Qed.

Lemma update_then_fetch_one_witness :
  In (1, mkOrderCols (VInt 1) (VInt 1) (VDateTime 5) (VStr "Pending"))
     (orders (db stocked_world))
  /\ fst (fetch_one_orders 1
            (snd (execute_update_orders 1
                    [("user_id", VInt 2); ("product_id", VInt 3)]
                    stocked_world)))
     = Ok (Some [("id", VInt 1); ("user_id", VInt 2); ("product_id", VInt 3);
                 ("order_date", VDateTime 5); ("status", VStr "Pending")]).
Proof.
  assert (H : In (1, mkOrderCols (VInt 1) (VInt 1) (VDateTime 5)
                                 (VStr "Pending"))
                 (orders (db stocked_world))).
  { simpl. now left. }
  split; [exact H|].
  apply (update_then_fetch_one stocked_world 1 2 3
           (mkOrderCols (VInt 1) (VInt 1) (VDateTime 5) (VStr "Pending"))
           eq_refl eq_refl eq_refl);
    [|exact H].
  repeat constructor. simpl. tauto.
Defined.

(** X15.  The UPDATE of [update_order] can be repeated without further
    effect, whatever values it carries; for an id that no order carries,
    with an id and integer values that fit 64 bits, it reports no row and
    leaves the orders as they were. *)
Theorem update_statement_repeated_or_absent
    (w : World) (i : Z) (values : Dict) :
  snd (execute_update_orders i values
         (snd (execute_update_orders i values w)))
  = snd (execute_update_orders i values w)
  /\ (~ In i (rowids (orders (db w))) ->
      check_values orders_columns values = Ok tt ->
      in_int64 i = true ->
      forallb bindable (map snd values) = true ->
      fst (execute_update_orders i values w) = Ok (VInt 0)
      /\ orders (db (snd (execute_update_orders i values w)))
         = orders (db w)).
Proof.
  rewrite !execute_update_orders_eq. split.
  - destruct (check_values orders_columns values); [|reflexivity].
    destruct (bind_parameters _); [|reflexivity].
    cbn [snd db clock reads orders with_orders users products].
    unfold with_orders. cbn [users products orders].
    now rewrite (table_update_twice _ _ _ (orders_set_twice values)).
  - intros A -> Ri Rv. unfold bind_parameters.
    rewrite forallb_app, Rv. cbn [forallb bindable]. rewrite Ri.
    cbn [andb fst snd db orders with_orders].
    rewrite (table_update_absent _ _ _ A). split; [|reflexivity].
    unfold rowcount.
    assert (F : filter (has_rowid i) (orders (db w)) = []).
    { destruct (filter (has_rowid i) (orders (db w))) as [|r l] eqn:E;
        [reflexivity|].
      assert (R : In r (filter (has_rowid i) (orders (db w))))
        by (rewrite E; now left).
      apply filter_In in R. destruct R as [R1 R2].
      exfalso. apply A. unfold has_rowid in R2. apply Z.eqb_eq in R2.
      subst i. now apply in_map. }
    now rewrite F.
Qed.

Lemma update_statement_repeated_or_absent_witness :
  ~ In 7 (rowids (orders (db stocked_world)))
  /\ fst (execute_update_orders 7 sample_order_body stocked_world)
     = Ok (VInt 0)
  /\ orders (db (snd (execute_update_orders 7 sample_order_body
                        stocked_world)))
     = orders (db stocked_world).
Proof.
  assert (A : ~ In 7 (rowids (orders (db stocked_world)))).
  { simpl. lia. }
  split; [exact A|].
  apply (proj2 (update_statement_repeated_or_absent
                  stocked_world 7 sample_order_body) A);
    reflexivity.
Defined.
